(** * logger.c: a shallow embedding of the logging context engine

    The development follows [src/src/logger.c] and [src/src/logger.h].
    The single static [Logger] structure and the static
    [logger_factory_file_file] stream become fields of an explicit [state];
    every library function is a function on that state.  The C library
    (the printf family, stdio streams, [atexit], [strftime]) is modelled in
    [Module Libc], restricted to what logger.c uses. *)

From Stdlib Require Import ZArith Ascii String DecimalString DecimalPos.
From stdpp Require Import base strings list gmap.

Local Open Scope string_scope.
Local Open Scope Z_scope.

(** ** C scalar types and the constants of logger.h *)

Definition time_t := Z.
Definition INT_MAX : Z := 2147483647.

Definition LOGGER_EMERGENCY : Z := 0.
Definition LOGGER_ALERT : Z := 1.
Definition LOGGER_CRITICAL : Z := 2.
Definition LOGGER_ERROR : Z := 3.
Definition LOGGER_WARNING : Z := 4.
Definition LOGGER_NOTICE : Z := 5.
Definition LOGGER_INFO : Z := 6.
Definition LOGGER_DEBUG : Z := 7.

Definition LOGGER_MESSAGE_BUFFER : nat := 2048.

(** A [void *] handed to the output function: null, the standard output
    stream, a stream opened on a path, or some other user object. *)
Inductive object :=
| NullObject
| StdoutStream
| FileStream (path : string)
| UserObject (id : Z).

(** A nullable [char const *]. *)
Definition is_null {A} (p : option A) : bool :=
  match p with None => true | Some _ => false end.

(** ** The C library, as far as logger.c uses it *)
Module Libc.

(** Variadic arguments. *)
Inductive arg :=
| Int (z : Z)
| Long (z : Z)
| Str (s : string).

(** Rendering of [%d], [%i] and [%ld]. *)
Definition decimal (z : Z) : string := NilZero.string_of_int (Z.to_int z).

Fixpoint spaces (n : nat) : string :=
  match n with
  | O => ""
  | S k => String " "%char (spaces k)
  end.

(** Rendering of [%-10s]: left-justified in a field of ten. *)
Definition pad_right (width : nat) (s : string) : string :=
  s ++ spaces (width - String.length s).

(** The first [n] characters of [s]. *)
Fixpoint str_take (n : nat) (s : string) : string :=
  match n, s with
  | S k, String c r => String c (str_take k r)
  | _, _ => ""
  end.

(** Interpretation of a format string.  The conversions are the ones that
    occur in logger.c and its call sites: [%%], [%s], [%d], [%i], [%ld]
    and [%-10s].  [None] stands for undefined behaviour: a conversion
    without a matching argument, or one outside this table. *)
Fixpoint format (fmt : string) (args : list arg) : option string :=
  match fmt with
  | "" => Some ""
  | String "%"%char rest =>
      match rest with
      | String "%"%char r => String "%"%char <$> format r args
      | String "s"%char r =>
          match args with
          | Str s :: args' => String.app s <$> format r args'
          | _ => None
          end
      | String "d"%char r | String "i"%char r =>
          match args with
          | Int z :: args' => String.app (decimal z) <$> format r args'
          | _ => None
          end
      | String "l"%char (String "d"%char r) =>
          match args with
          | Long z :: args' => String.app (decimal z) <$> format r args'
          | _ => None
          end
      | String "-"%char (String "1"%char (String "0"%char (String "s"%char r))) =>
          match args with
          | Str s :: args' => String.app (pad_right 10 s) <$> format r args'
          | _ => None
          end
      | _ => None
      end
  | String c rest => String c <$> format rest args
  end.

(** [snprintf(buf, size, fmt, ...)] and [vsnprintf]: the text left in
    [buf] (at most [size - 1] characters, the last byte is the
    terminator) and the returned count, which is the length the whole
    output would have had, or a negative value when that length does not
    fit an [int].  [None]: undefined behaviour of [format]. *)
Definition snprintf (size : nat) (fmt : string) (args : list arg)
  : option (string * Z) :=
  match format fmt args with
  | None => None
  | Some s =>
      let n := Z.of_nat (String.length s) in
      if n >? INT_MAX then Some ("", -1) else Some (str_take (size - 1) s, n)
  end.

Definition vsnprintf := snprintf.

(** The part of the process environment the library touches.  A file's
    content is the list of chunks written to it, one per [fprintf] call,
    as seen once flushed.  A stream is identified with the path it was
    opened on. *)
Record World := mkWorld {
  w_stderr : list string;
  w_stdout : list string;
  w_files : gmap string (list string);
  w_open : gset string;
  w_unwritable : gset string;
  w_atexit_free : nat;
  w_ctime : time_t -> string;
  w_undefined : bool
}.

Definition set_stderr (v : list string) (w : World) : World :=
  mkWorld v (w_stdout w) (w_files w) (w_open w) (w_unwritable w)
          (w_atexit_free w) (w_ctime w) (w_undefined w).
Definition set_stdout (v : list string) (w : World) : World :=
  mkWorld (w_stderr w) v (w_files w) (w_open w) (w_unwritable w)
          (w_atexit_free w) (w_ctime w) (w_undefined w).
Definition set_files (v : gmap string (list string)) (w : World) : World :=
  mkWorld (w_stderr w) (w_stdout w) v (w_open w) (w_unwritable w)
          (w_atexit_free w) (w_ctime w) (w_undefined w).
Definition set_open (v : gset string) (w : World) : World :=
  mkWorld (w_stderr w) (w_stdout w) (w_files w) v (w_unwritable w)
          (w_atexit_free w) (w_ctime w) (w_undefined w).
Definition set_atexit_free (v : nat) (w : World) : World :=
  mkWorld (w_stderr w) (w_stdout w) (w_files w) (w_open w) (w_unwritable w)
          v (w_ctime w) (w_undefined w).

(** Undefined behaviour happened: the flag is raised and never lowered. *)
Definition undefined (w : World) : World :=
  mkWorld (w_stderr w) (w_stdout w) (w_files w) (w_open w) (w_unwritable w)
          (w_atexit_free w) (w_ctime w) true.

(** [fprintf(stderr, text)] with a literal text. *)
Definition stderr_write (text : string) (w : World) : World :=
  set_stderr (w_stderr w ++ [text])%list w.

(** [fprintf(stream, fmt, ...)] where [stream] comes from a [void *]
    and [fmt] may be a null pointer. *)
Definition fprintf (stream : object) (fmt : option string) (args : list arg)
    (w : World) : World :=
  match fmt with
  | None => undefined w
  | Some f =>
      match format f args with
      | None => undefined w
      | Some text =>
          match stream with
          | StdoutStream => set_stdout (w_stdout w ++ [text])%list w
          | FileStream p =>
              if decide (p ∈ w_open w)
              then set_files (<[p := (default [] (w_files w !! p) ++ [text])%list]> (w_files w)) w
              else undefined w
          | _ => undefined w
          end
      end
  end.

(** [fopen(path, "w")]: fails on the paths the environment refuses,
    otherwise truncates the file and opens a stream on it. *)
Definition fopen_w (path : string) (w : World) : option string * World :=
  if decide (path ∈ w_unwritable w) then (None, w)
  else (Some path, set_open ({[path]} ∪ w_open w) (set_files (<[path := []]> (w_files w)) w)).

(** [fflush(f); fclose(f)]: closing a stream that is not open is
    undefined. *)
Definition fclose (f : string) (w : World) : World :=
  if decide (f ∈ w_open w) then set_open (w_open w ∖ {[f]}) w else undefined w.

(** [atexit(handler)]: zero on success, non-zero when the runtime has no
    slot left. *)
Definition atexit (w : World) : Z * World :=
  match w_atexit_free w with
  | O => (-1, w)
  | S k => (0, set_atexit_free k w)
  end.

(** [strftime(buf, max, "%c", localtime(&t))]: the locale's rendering of
    [t] and its length, or zero when it does not fit. *)
Definition strftime (max : nat) (t : time_t) (w : World) : string * Z :=
  let s := w_ctime w t in
  if (String.length s <? max)%nat then (s, Z.of_nat (String.length s)) else ("", 0).

End Libc.
Import Libc.

(** ** The logging context (logger.h typedefs, logger.c lines 14-35) *)

(** [logger_transform]: timestamp, level, file, line number and the message
    buffer; the result is the returned pointer (null on failure).  A
    callback acts on the environment, not on the context. *)
Definition logger_transform : Type :=
  time_t -> Z -> option string -> Z -> option string -> World -> option string * World.

(** [logger_push_log]: the custom object and the message. *)
Definition logger_push_log : Type :=
  object -> option string -> World -> Z * World.

Record logging_context := mkContext {
  log_level : Z;
  output_object : object;
  output_function : option logger_push_log;
  transform_function : option logger_transform;
  is_active : bool
}.

(** What logger.c did, in order: its own diagnostics and the calls it made
    through the two function pointers.  Callbacks cannot touch this list. *)
Inductive event :=
| EvDiag (text : string)
| EvTransform (timestamp : time_t) (level : Z) (file : option string)
              (linenumber : Z) (message : string)
| EvOutput (custom_object : object) (message : option string).

Record state := mkState {
  Logger : logging_context;
  logger_factory_file_file : option string;
  world : World;
  trace : list event
}.

(** [static logging_context Logger = {0};] *)
Definition Logger_zero : logging_context :=
  mkContext 0 NullObject None None false.

Definition initial_state (w : World) : state :=
  mkState Logger_zero None w [].

(** [Logger.field] read from the state. *)
Definition Logger_log_level (st : state) : Z := log_level (Logger st).
Definition Logger_output_object (st : state) : object := output_object (Logger st).
Definition Logger_output_function (st : state) := output_function (Logger st).
Definition Logger_transform_function (st : state) := transform_function (Logger st).
Definition Logger_is_active (st : state) : bool := is_active (Logger st).

Definition set_Logger (c : logging_context) (st : state) : state :=
  mkState c (logger_factory_file_file st) (world st) (trace st).
Definition set_file_file (f : option string) (st : state) : state :=
  mkState (Logger st) f (world st) (trace st).
Definition set_world (w : World) (st : state) : state :=
  mkState (Logger st) (logger_factory_file_file st) w (trace st).
Definition record (e : event) (st : state) : state :=
  mkState (Logger st) (logger_factory_file_file st) (world st) (trace st ++ [e])%list.

(** [fprintf(stderr, text)] (or [perror]) issued by logger.c itself. *)
Definition diag (text : string) (st : state) : state :=
  record (EvDiag text) (set_world (stderr_write text (world st)) st).

Definition LF : string := String "010"%char "".

(** ** Factory callbacks (logger.c lines 43-79 and 119-143) *)

Definition log_level_mapping_upper : list string :=
  ["EMERGENCY"; "ALERT"; "CRITICAL"; "ERROR"; "WARNING"; "NOTICE"; "INFO"; "DEBUG"].

Definition log_level_mapping_lower : list string :=
  ["emergency"; "alert"; "critical"; "error"; "warning"; "notice"; "info"; "debug"].

Definition logger_factory_console_transform : logger_transform :=
  fun timestamp level file filenumber message w =>
  if (level <? LOGGER_EMERGENCY) || (level >? LOGGER_DEBUG)
     || is_null message || is_null file
  then (None, stderr_write "Could not transform message, invalid parameters" w)
  else
    let '(time_text, offset) := strftime LOGGER_MESSAGE_BUFFER timestamp w in
    if offset <? 1
    then (None, stderr_write ("Could not write time to buffer" ++ LF) w)
    else
      match snprintf LOGGER_MESSAGE_BUFFER (" %-10s %s:%d - %s" ++ LF)
              [Str (nth (Z.to_nat level) log_level_mapping_upper "");
               Str (default "" file); Int filenumber; Str (default "" message)] with
      | None => (None, undefined w)
      | Some (tail, n) =>
          if n <? 1
          then (None, stderr_write "Could not amalgamate Message - sprintf returned 0 bytes" w)
          else
            (* the write starts at [tmp_buffer + offset] but is bounded by
               the whole buffer size: it may run past the end *)
            let tmp_buffer := time_text ++ tail in
            if (LOGGER_MESSAGE_BUFFER <=? String.length tmp_buffer)%nat
            then (Some (str_take (LOGGER_MESSAGE_BUFFER - 1) tmp_buffer), undefined w)
            else (Some tmp_buffer, w)
      end.

Definition logger_factory_console_output : logger_push_log :=
  fun custom_object message w => (1, fprintf custom_object message [] w).

Definition logger_factory_csv_transform : logger_transform :=
  fun timestamp level file filenumber message w =>
  if (level <? LOGGER_EMERGENCY) || (level >? LOGGER_DEBUG)
     || is_null message || is_null file
  then (None, stderr_write "Could not transform message, invalid parameters" w)
  else
    match snprintf LOGGER_MESSAGE_BUFFER ("%ld,%s,%s,%i,%s" ++ LF)
            [Long timestamp;
             Str (nth (Z.to_nat level) log_level_mapping_lower "");
             Str (default "" file); Int filenumber; Str (default "" message)] with
    | None => (None, undefined w)
    | Some (tmp_buffer, n) =>
        if n <? 1
        then (None, stderr_write "Could not amalgamate Message - sprintf returned 0 bytes" w)
        else (Some tmp_buffer, w)
    end.

(** ** The context engine (logger.c lines 182-385) *)

(** [now] is the value [time((void* )0)] returns at line 197. *)
Definition logger_log (now : time_t) (level : Z) (file : option string)
    (linenumber : Z) (message : option string) (args : list arg) (st : state) : state :=
  if (level <? 0) || (level >? 7) || is_null message || is_null file
  then diag ("Could not log message - empty or outside log levels" ++ LF) st
  else if (level >? Logger_log_level st) || Bool.eqb (Logger_is_active st) false
  then st
  else
    match vsnprintf LOGGER_MESSAGE_BUFFER (default "" message) args with
    | None => set_world (undefined (world st)) st
    | Some (message_buffer, n) =>
        if n <? 1
        then diag ("Could not log message - pre-formatting returned 0 bytes" ++ LF) st
        else
          (* the argument of the push call is evaluated first; a call
             through a null function pointer is undefined *)
          match Logger_transform_function st with
          | None => set_world (undefined (world st)) st
          | Some transform =>
              let '(formatted, w1) :=
                transform now level file linenumber (Some message_buffer) (world st) in
              let st1 :=
                record (EvTransform now level file linenumber message_buffer)
                       (set_world w1 st) in
              match Logger_output_function st with
              | None => set_world (undefined (world st1)) st1
              | Some output =>
                  let '(status, w2) := output (Logger_output_object st) formatted w1 in
                  let st2 :=
                    record (EvOutput (Logger_output_object st) formatted)
                           (set_world w2 st1) in
                  if status <? 1
                  then diag ("Could not log message - push function failed" ++ LF) st2
                  else st2
              end
          end
    end.

Definition logger_setup_context (level : Z) (output_data : object)
    (output : option logger_push_log) (transform : option logger_transform)
    (active : bool) (st : state) : Z * state :=
  if (level <? 0) || (level >? 7) then (0, st)
  else if is_null output || is_null transform then (-1, st)
  else (1, set_Logger (mkContext level output_data output transform active) st).

Definition logger_set_output_callback (new_output : option logger_push_log)
    (st : state) : Z * state :=
  if is_null (Logger_output_function st) || is_null new_output then (0, st)
  else
    (1, set_Logger (mkContext (Logger_log_level st) (Logger_output_object st) new_output
                              (Logger_transform_function st) (Logger_is_active st)) st).

Definition logger_set_loglevel (level : Z) (st : state) : Z * state :=
  if (level <? 0) || (Logger_log_level st =? level) then (0, st)
  else
    (1, set_Logger (mkContext level (Logger_output_object st) (Logger_output_function st)
                              (Logger_transform_function st) (Logger_is_active st)) st).

Definition logger_set_transform (new_transform : option logger_transform)
    (st : state) : Z * state :=
  if is_null (Logger_output_function st) || is_null new_transform then (0, st)
  else
    (1, set_Logger (mkContext (Logger_log_level st) (Logger_output_object st)
                              (Logger_output_function st) new_transform
                              (Logger_is_active st)) st).

Definition logger_toggle (set_active : bool) (st : state) : state :=
  if Bool.eqb set_active (Logger_is_active st) then st
  else
    set_Logger (mkContext (Logger_log_level st) (Logger_output_object st)
                          (Logger_output_function st) (Logger_transform_function st)
                          set_active) st.

Definition logger_get_status (st : state) : bool := Logger_is_active st.

Definition logger_is_initialized (st : state) : bool :=
  if negb (is_null (Logger_transform_function st))
     && negb (is_null (Logger_output_function st))
     && (Logger_log_level st >=? LOGGER_EMERGENCY)
     && (Logger_log_level st <=? LOGGER_DEBUG)
  then true
  else false.

(** ** Preset factories (logger.c lines 81-117 and 145-152) *)

Definition logger_factory_console (level : Z) (st : state) : Z * state :=
  logger_setup_context level StdoutStream (Some logger_factory_console_output)
                       (Some logger_factory_console_transform) true st.

Definition logger_factory_file (level : Z) (file_path : option string)
    (st : state) : Z * state :=
  if is_null file_path || (level <? LOGGER_EMERGENCY) || (level >? LOGGER_DEBUG)
  then (-1, st)
  else
    let st1 :=
      match logger_factory_file_file st with
      | Some f => set_world (fclose f (world st)) st
      | None => st
      end in
    let '(f, w) := fopen_w (default "" file_path) (world st1) in
    let st2 := set_file_file f (set_world w st1) in
    match f with
    | None => (-2, diag "Could not open File for factory setup" st2)
    | Some stream =>
        let '(rc, w') := atexit (world st2) in
        let st3 := set_world w' st2 in
        if negb (rc =? 0)
        then
          let st4 := diag ("Could not setup atexit handler" ++ LF) st3 in
          (-3, set_world (fclose stream (world st4)) st4)
        else
          logger_setup_context level (FileStream stream)
            (Some logger_factory_console_output)
            (Some logger_factory_console_transform) true st3
    end.

Definition csv_header : string :=
  "timestamp,priority,filename,linenumber,message" ++ LF.

Definition logger_factory_csv (level : Z) (file_path : option string)
    (st : state) : Z * state :=
  let '(ret_code, st1) := logger_factory_file level file_path st in
  if ret_code <=? 0 then (ret_code, st1)
  else
    let st2 := snd (logger_set_transform (Some logger_factory_csv_transform) st1) in
    let stream :=
      match logger_factory_file_file st2 with
      | Some f => FileStream f
      | None => NullObject
      end in
    (ret_code, set_world (fprintf stream (Some csv_header) [] (world st2)) st2).

(** ** Reading the record of calls *)

Definition is_transform_call (e : event) : bool :=
  match e with EvTransform _ _ _ _ _ => true | _ => false end.

Definition is_output_call (e : event) : bool :=
  match e with EvOutput _ _ => true | _ => false end.

Definition count_events (p : event -> bool) (l : list event) : nat :=
  length (List.filter p l).

(** How often the transformer, and the sink, have been invoked so far. *)
Definition transform_calls (st : state) : nat := count_events is_transform_call (trace st).
Definition output_calls (st : state) : nat := count_events is_output_call (trace st).

(** ** Reading a destination file *)

(** The chunks written to [path] since it was last opened for writing. *)
Definition file_content (path : string) (st : state) : list string :=
  default [] (w_files (world st) !! path).

(** A chunk that begins like a [%ld] rendering: a digit or a minus sign. *)
Definition is_decimal_lead (c : ascii) : bool :=
  Ascii.eqb c "-" || ((48 <=? nat_of_ascii c)%nat && (nat_of_ascii c <=? 57)%nat).

Definition starts_numeric (s : string) : bool :=
  match s with
  | String c _ => is_decimal_lead c
  | "" => false
  end.

(** The context as the tabular preset leaves it, writing to [path]. *)
Definition csv_context (level : Z) (path : string) : logging_context :=
  mkContext level (FileStream path) (Some logger_factory_console_output)
            (Some logger_factory_csv_transform) true.

(** ** Runs of log calls *)

Record log_call := mkCall {
  call_now : time_t;
  call_level : Z;
  call_file : option string;
  call_line : Z;
  call_message : option string;
  call_args : list arg
}.

Definition logger_log_call (c : log_call) (st : state) : state :=
  logger_log (call_now c) (call_level c) (call_file c) (call_line c)
             (call_message c) (call_args c) st.

Fixpoint logger_log_all (calls : list log_call) (st : state) : state :=
  match calls with
  | [] => st
  | c :: rest => logger_log_all rest (logger_log_call c st)
  end.

(** ** Concrete inputs used to run the model *)
Module Sample.

(** An environment with empty streams, no files, and the locale of the
    repository's test suite. *)
Definition test_world : World :=
  mkWorld [] [] ∅ ∅ ∅ 32 (fun _ => "Thu Sep 30 23:02:25 2021") false.

(** The process right after start-up. *)
Definition fresh : state := initial_state test_world.

(** A transformer that rejects every message. *)
Definition reject_transform : logger_transform :=
  fun _ _ _ _ _ w => (None, w).

(** A transformer that hands the raw message on as it is. *)
Definition identity_transform : logger_transform :=
  fun _ _ _ _ message w => (message, w).

Fixpoint repeat_char (n : nat) (c : ascii) : string :=
  match n with
  | O => ""
  | S k => String c (repeat_char k c)
  end.

(** Console preset at DEBUG. *)
Definition console_debug : state :=
  snd (logger_factory_console LOGGER_DEBUG fresh).

(** Tabular preset at DEBUG on [out.csv]. *)
Definition csv_debug : state :=
  snd (logger_factory_csv LOGGER_DEBUG (Some "out.csv") fresh).

(** A hand-made setup on standard output with the rejecting, and with
    the identity, transformer. *)
Definition reject_debug : state :=
  snd (logger_setup_context LOGGER_DEBUG StdoutStream
         (Some logger_factory_console_output) (Some reject_transform) true fresh).

Definition identity_debug : state :=
  snd (logger_setup_context LOGGER_DEBUG StdoutStream
         (Some logger_factory_console_output) (Some identity_transform) true fresh).

Definition two_calls : list log_call :=
  [mkCall 1633035745 LOGGER_INFO (Some "./src/logger.c") 486
          (Some "this is the first test") [];
   mkCall 1633035746 LOGGER_DEBUG (Some "./src/logger.c") 487
          (Some "about to finish the test: %s") [Str "02034020342394827394"]].

End Sample.

(** ** The exit handler (logger.c lines 89-95) *)

Definition logger_factory_file_exit (st : state) : state :=
  match logger_factory_file_file st with
  | Some f => set_world (fclose f (world st)) st
  | None => st
  end.

(** ** The call-site macros (logger.h lines 58-65)

    [file] and [line] are what the preprocessor puts for [__FILE__] and
    [__LINE__]; the first variadic argument is the format string. *)

Definition logger_emergency now (file : string) line message args :=
  logger_log now LOGGER_EMERGENCY (Some file) line message args.
Definition logger_alert now (file : string) line message args :=
  logger_log now LOGGER_ALERT (Some file) line message args.
Definition logger_critical now (file : string) line message args :=
  logger_log now LOGGER_CRITICAL (Some file) line message args.
Definition logger_error now (file : string) line message args :=
  logger_log now LOGGER_ERROR (Some file) line message args.
Definition logger_warning now (file : string) line message args :=
  logger_log now LOGGER_WARNING (Some file) line message args.
Definition logger_notice now (file : string) line message args :=
  logger_log now LOGGER_NOTICE (Some file) line message args.
Definition logger_info now (file : string) line message args :=
  logger_log now LOGGER_INFO (Some file) line message args.
Definition logger_debug now (file : string) line message args :=
  logger_log now LOGGER_DEBUG (Some file) line message args.

(** ** The demo program (src/logger/tests/logger_test.c)

    [file] is the program's [__FILE__]; [t1] to [t4] are the clock values
    at the four log calls, in order. *)
Definition test_main (file : string) (t1 t2 t3 t4 : time_t) (st : state) : Z * state :=
  let '(rc, st1) := logger_factory_console LOGGER_WARNING st in
  if (rc <=? 0) || Bool.eqb (logger_is_initialized st1) false
  then (-1, set_world (stderr_write ("Could not initialize logger" ++ LF) (world st1)) st1)
  else
    let st2 := logger_debug t1 file 8 (Some "Initialized Logger") [] st1 in
    let st3 := logger_emergency t2 file 9 (Some "A test emergency message") [] st2 in
    let st4 := logger_warning t3 file 10 (Some "A visible message") [] st3 in
    let st5 := logger_toggle false st4 in
    let st6 := logger_error t4 file 12 (Some "This should not be visible") [] st5 in
    (0, st6).

(** ** The interface as a whole *)

Inductive api_call :=
| CallSetup (level : Z) (output_data : object) (output : option logger_push_log)
            (transform : option logger_transform) (active : bool)
| CallSetOutput (new_output : option logger_push_log)
| CallSetLoglevel (level : Z)
| CallSetTransform (new_transform : option logger_transform)
| CallToggle (set_active : bool)
| CallLog (c : log_call)
| CallConsole (level : Z)
| CallFile (level : Z) (file_path : option string)
| CallCsv (level : Z) (file_path : option string).

Definition api_step (c : api_call) (st : state) : state :=
  match c with
  | CallSetup level output_data output transform active =>
      snd (logger_setup_context level output_data output transform active st)
  | CallSetOutput new_output => snd (logger_set_output_callback new_output st)
  | CallSetLoglevel level => snd (logger_set_loglevel level st)
  | CallSetTransform new_transform => snd (logger_set_transform new_transform st)
  | CallToggle set_active => logger_toggle set_active st
  | CallLog c => logger_log_call c st
  | CallConsole level => snd (logger_factory_console level st)
  | CallFile level file_path => snd (logger_factory_file level file_path st)
  | CallCsv level file_path => snd (logger_factory_csv level file_path st)
  end.

Fixpoint api_run (calls : list api_call) (st : state) : state :=
  match calls with
  | [] => st
  | c :: rest => api_run rest (api_step c st)
  end.

(** Both function pointers are set. *)
Definition callbacks_set (st : state) : bool :=
  negb (is_null (Logger_output_function st))
  && negb (is_null (Logger_transform_function st)).

(** The two function pointers are null together or set together. *)
Definition callbacks_paired (st : state) : bool :=
  Bool.eqb (is_null (Logger_output_function st))
           (is_null (Logger_transform_function st)).

(** No conversion specification: the text holds no percent sign. *)
Fixpoint percent_free (s : string) : bool :=
  match s with
  | "" => true
  | String c r => negb (Ascii.eqb c "%") && percent_free r
  end.

(** The line the console transformer composes. *)
Definition console_line (time_text : string) (level : Z) (file : string)
    (filenumber : Z) (message : string) : string :=
  time_text ++ " " ++ pad_right 10 (nth (Z.to_nat level) log_level_mapping_upper "")
  ++ " " ++ file ++ ":" ++ decimal filenumber ++ " - " ++ message ++ LF.

(** The record the tabular transformer composes. *)
Definition csv_record (timestamp : time_t) (level : Z) (file : string)
    (filenumber : Z) (message : string) : string :=
  decimal timestamp ++ "," ++ nth (Z.to_nat level) log_level_mapping_lower ""
  ++ "," ++ file ++ "," ++ decimal filenumber ++ "," ++ message ++ LF.

(** The context as the console preset leaves it. *)
Definition console_context (level : Z) : logging_context :=
  mkContext level StdoutStream (Some logger_factory_console_output)
            (Some logger_factory_console_transform) true.

(** ** More concrete inputs *)
Module Fixture.

(** A sink that refuses every message. *)
Definition refuse_output : logger_push_log :=
  fun _ _ w => (0, w).

Definition refusing : state :=
  snd (logger_setup_context LOGGER_DEBUG StdoutStream (Some refuse_output)
         (Some Sample.identity_transform) true Sample.fresh).

(** File preset at DEBUG on [out.txt]. *)
Definition file_debug : state :=
  snd (logger_factory_file LOGGER_DEBUG (Some "out.txt") Sample.fresh).

(** The same, in an environment that refuses to open [locked.txt]. *)
Definition locked_world : World :=
  mkWorld [] [] ∅ ∅ {["locked.txt"]} 32 (fun _ => "Thu Sep 30 23:02:25 2021") false.

Definition file_debug_locked : state :=
  snd (logger_factory_file LOGGER_DEBUG (Some "out.txt") (initial_state locked_world)).

(** An environment whose runtime accepts no exit handler. *)
Definition full_world : World :=
  mkWorld [] [] ∅ ∅ ∅ 0 (fun _ => "Thu Sep 30 23:02:25 2021") false.

Definition session : list api_call :=
  [CallToggle true;
   CallSetLoglevel 9;
   CallConsole LOGGER_WARNING;
   CallSetTransform None;
   CallLog (mkCall 1633035745 LOGGER_ERROR (Some "main.c") 7 (Some "disk %s") [Str "full"]);
   CallCsv LOGGER_DEBUG (Some "out.csv");
   CallSetup 12 NullObject None None false;
   CallSetLoglevel 8].

End Fixture.

(** * Properties *)

Ltac zcases :=
  repeat match goal with
  | |- context [?a >? ?b] => rewrite (Z.gtb_ltb a b)
  | |- context [?a >=? ?b] => rewrite (Z.geb_leb a b)
  | |- context [?a <? ?b] => destruct (Z.ltb_spec a b)
  | |- context [?a <=? ?b] => destruct (Z.leb_spec a b)
  | |- context [?a =? ?b] => destruct (Z.eqb_spec a b)
  end.

(** ** Sanity checks of the model against the repository's test suite *)

Example console_info_line :
  w_stdout (world (logger_log 1633035745 LOGGER_INFO (Some "./src/logger.c") 456
                              (Some "This is one Test") [] Sample.console_debug))
  = ["Thu Sep 30 23:02:25 2021 INFO       ./src/logger.c:456 - This is one Test" ++ LF].
Proof. reflexivity. Qed.

Example console_debug_parameter :
  w_stdout (world (logger_log 1633035745 LOGGER_DEBUG (Some "./src/logger.c") 459
                              (Some "This is a parameter test: %s") [Str "parameter"]
                              Sample.console_debug))
  = ["Thu Sep 30 23:02:25 2021 DEBUG      ./src/logger.c:459 - This is a parameter test: parameter" ++ LF].
Proof. reflexivity. Qed.

Example init_check_toggle :
  logger_get_status Sample.console_debug = true
  /\ logger_get_status (logger_toggle false Sample.console_debug) = false
  /\ logger_get_status (logger_toggle true (logger_toggle false Sample.console_debug)) = true.
Proof. repeat split. Qed.

(** ** Shape of the dispatch path *)

Lemma set_Logger_same st : set_Logger (Logger st) st = st.
Proof. by destruct st. Qed.

Lemma logger_log_invalid now level file linenumber message args st :
  level < 0 \/ 7 < level \/ file = None \/ message = None ->
  logger_log now level file linenumber message args st
  = diag ("Could not log message - empty or outside log levels" ++ LF) st.
Proof.
  intros H. unfold logger_log.
  destruct message as [m|], file as [f|]; zcases; simpl; try reflexivity.
  all: exfalso; destruct H as [?|[?|[?|?]]]; try lia; discriminate.
Qed.

Lemma logger_log_filtered now level file linenumber message args st :
  0 <= level <= 7 ->
  Logger_log_level st < level \/ Logger_is_active st = false ->
  logger_log now level (Some file) linenumber (Some message) args st = st.
Proof.
  intros Hr H. unfold logger_log. zcases; simpl; try lia; try reflexivity.
  destruct H as [?| ->]; [lia | reflexivity].
Qed.

(** Once validation and the filter are passed, the call is decided by the
    pre-formatting step alone. *)
Lemma logger_log_passed now level file linenumber message args st :
  0 <= level <= 7 ->
  level <= Logger_log_level st ->
  Logger_is_active st = true ->
  logger_log now level (Some file) linenumber (Some message) args st
  = match vsnprintf LOGGER_MESSAGE_BUFFER message args with
    | None => set_world (undefined (world st)) st
    | Some (message_buffer, n) =>
        if n <? 1
        then diag ("Could not log message - pre-formatting returned 0 bytes" ++ LF) st
        else
          match Logger_transform_function st with
          | None => set_world (undefined (world st)) st
          | Some transform =>
              let '(formatted, w1) :=
                transform now level (Some file) linenumber (Some message_buffer) (world st) in
              let st1 :=
                record (EvTransform now level (Some file) linenumber message_buffer)
                       (set_world w1 st) in
              match Logger_output_function st with
              | None => set_world (undefined (world st1)) st1
              | Some output =>
                  let '(status, w2) := output (Logger_output_object st) formatted w1 in
                  let st2 :=
                    record (EvOutput (Logger_output_object st) formatted)
                           (set_world w2 st1) in
                  if status <? 1
                  then diag ("Could not log message - push function failed" ++ LF) st2
                  else st2
              end
          end
    end.
Proof.
  intros Hr Hl Ha. unfold logger_log at 1. rewrite Ha.
  zcases; simpl; try lia; reflexivity.
Qed.

(** The events one dispatch appends once the transformer is reached. *)
Lemma logger_log_dispatch_trace now level file linenumber message args st
    transform output message_buffer n :
  0 <= level <= 7 ->
  level <= Logger_log_level st ->
  Logger_is_active st = true ->
  vsnprintf LOGGER_MESSAGE_BUFFER message args = Some (message_buffer, n) ->
  1 <= n ->
  Logger_transform_function st = Some transform ->
  Logger_output_function st = Some output ->
  let r := transform now level (Some file) linenumber (Some message_buffer) (world st) in
  let s := output (Logger_output_object st) (fst r) (snd r) in
  trace (logger_log now level (Some file) linenumber (Some message) args st)
  = (trace st
     ++ [EvTransform now level (Some file) linenumber message_buffer;
         EvOutput (Logger_output_object st) (fst r)]
     ++ (if fst s <? 1
         then [EvDiag ("Could not log message - push function failed" ++ LF)]
         else []))%list.
Proof.
  intros Hr Hl Ha Hf Hn Ht Ho r s.
  rewrite logger_log_passed by assumption.
  rewrite Hf, Ht. subst r s.
  destruct (Z.ltb_spec n 1); [lia|].
  destruct (transform _ _ _ _ _ _) as [formatted w1]; simpl.
  rewrite Ho.
  destruct (output _ _ _) as [status w2]; simpl.
  destruct (status <? 1); simpl; rewrite <- ?app_assoc; reflexivity.
Qed.

Lemma count_events_app p l1 l2 :
  count_events p (l1 ++ l2)%list = (count_events p l1 + count_events p l2)%nat.
Proof. unfold count_events. by rewrite List.filter_app, length_app. Qed.

Lemma diag_calls text st :
  transform_calls (diag text st) = transform_calls st
  /\ output_calls (diag text st) = output_calls st.
Proof.
  unfold transform_calls, output_calls, diag, record; simpl.
  rewrite !count_events_app. unfold count_events; simpl. lia.
Qed.

Lemma setup_success level output_data output transform active st code st' :
  logger_setup_context level output_data output transform active st = (code, st') ->
  0 < code ->
  0 <= level <= 7
  /\ st' = set_Logger (mkContext level output_data output transform active) st
  /\ (exists o t, output = Some o /\ transform = Some t).
Proof.
  unfold logger_setup_context. intros H Hc.
  destruct (Z.ltb_spec level 0), (Z.gtb_spec level 7); simpl in H;
    try (inversion H; subst; lia).
  destruct output as [o|], transform as [t|]; simpl in H; inversion H; subst; try lia.
  repeat split; try lia. by exists o, t.
Qed.

(** ** C1: the filter law *)

(** The claim as stated fails: the console preset at DEBUG is active and
    INFO passes the threshold, but the empty format string is dropped. *)
Lemma filter_law_counterexample :
  fst (logger_factory_console LOGGER_DEBUG Sample.fresh) = 1
  /\ Logger_is_active Sample.console_debug = true
  /\ LOGGER_INFO <= Logger_log_level Sample.console_debug
  /\ transform_calls (logger_log 1633035745 LOGGER_INFO (Some "main.c") 12 (Some "") []
                        Sample.console_debug)
     = transform_calls Sample.console_debug
  /\ output_calls (logger_log 1633035745 LOGGER_INFO (Some "main.c") 12 (Some "") []
                     Sample.console_debug)
     = output_calls Sample.console_debug.
Proof. repeat split; vm_compute; congruence. Qed.

(** C1 (amended).  After a successful setup with threshold [T] and flag
    [active], a log call with a severity in [0,7], a source file and a
    format string whose interpolation is defined and returns the count [n]
    invokes the transformer and the sink (once each) if and only if
    [active] is true, the severity is at most [T] and [1 <= n]; when
    [active] is false or the severity exceeds [T] the call changes nothing
    at all. *)
Theorem filter_law T output_data output transform active st0 code st
    now level file linenumber message args message_buffer n :
  logger_setup_context T output_data (Some output) (Some transform) active st0
    = (code, st) ->
  0 < code ->
  0 <= level <= 7 ->
  vsnprintf LOGGER_MESSAGE_BUFFER message args = Some (message_buffer, n) ->
  ((transform_calls (logger_log now level (Some file) linenumber (Some message) args st)
      = S (transform_calls st)
    /\ output_calls (logger_log now level (Some file) linenumber (Some message) args st)
      = S (output_calls st))
   <-> (active = true /\ level <= T /\ 1 <= n))
  /\ (~ (active = true /\ level <= T /\ 1 <= n) ->
      transform_calls (logger_log now level (Some file) linenumber (Some message) args st)
        = transform_calls st
      /\ output_calls (logger_log now level (Some file) linenumber (Some message) args st)
        = output_calls st)
  /\ (active = false \/ T < level ->
      logger_log now level (Some file) linenumber (Some message) args st = st).
Proof.
  intros Hs Hc Hr Hf.
  destruct (setup_success _ _ _ _ _ _ _ _ Hs Hc) as (HT & -> & _).
  set (st := set_Logger _ st0).
  assert (Hyes : active = true /\ level <= T /\ 1 <= n ->
    transform_calls (logger_log now level (Some file) linenumber (Some message) args st)
      = S (transform_calls st)
    /\ output_calls (logger_log now level (Some file) linenumber (Some message) args st)
      = S (output_calls st)).
  { intros (Ha & Hl & Hn).
    unfold transform_calls, output_calls.
    rewrite (logger_log_dispatch_trace now level file linenumber message args st
               transform output message_buffer n) by (subst st; auto).
    rewrite !count_events_app.
    destruct (fst (output _ _ _) <? 1); simpl; unfold count_events; simpl; lia. }
  assert (Hno : ~ (active = true /\ level <= T /\ 1 <= n) ->
    transform_calls (logger_log now level (Some file) linenumber (Some message) args st)
      = transform_calls st
    /\ output_calls (logger_log now level (Some file) linenumber (Some message) args st)
      = output_calls st).
  { intros Hn.
    destruct active eqn:Ha.
    - destruct (Z.le_gt_cases level T) as [Hl|Hl].
      + rewrite logger_log_passed by (subst st; auto).
        rewrite Hf. destruct (Z.ltb_spec n 1); [apply diag_calls|].
        exfalso. apply Hn. repeat split; [assumption | lia].
      + rewrite logger_log_filtered by (subst st; auto). auto.
    - rewrite logger_log_filtered by (subst st; auto). auto. }
  split; [split; [|exact Hyes] | split; [exact Hno|]].
  - intros [H1 H2].
    destruct active eqn:Ha, (Z.le_gt_cases level T) as [Hl|Hl],
      (Z.le_gt_cases 1 n) as [Hn|Hn]; try (repeat split; assumption);
      exfalso; destruct Hno as [H3 H4]; try lia;
      intros (? & ? & ?); try lia; discriminate.
  - intros H. apply logger_log_filtered; [assumption|].
    subst st. destruct H as [-> | H]; [right; reflexivity | left; exact H].
Qed.

Lemma filter_law_witness :
  (transform_calls (logger_log 1633035745 LOGGER_INFO (Some "main.c") 12 (Some "hello") []
                      Sample.console_debug)
     = S (transform_calls Sample.console_debug)
   /\ output_calls (logger_log 1633035745 LOGGER_INFO (Some "main.c") 12 (Some "hello") []
                      Sample.console_debug)
     = S (output_calls Sample.console_debug))
  <-> (true = true /\ LOGGER_INFO <= LOGGER_DEBUG /\ 1 <= 5).
Proof.
  apply (filter_law LOGGER_DEBUG StdoutStream logger_factory_console_output
           logger_factory_console_transform true Sample.fresh 1 Sample.console_debug
           1633035745 LOGGER_INFO "main.c" 12 "hello" [] "hello" 5).
  - reflexivity.
  - lia.
  - unfold LOGGER_INFO; lia.
  - reflexivity.
Defined.

(** ** C7: argument validation *)

(** C7.  A log call whose severity is outside [0,7], or whose source file
    or format string is null, writes one line to the diagnostic channel
    and does nothing else: the context and the file handle are unchanged,
    the environment differs by that line only, and neither the
    transformer nor the sink is invoked. *)
Theorem log_rejects_invalid_arguments now level file linenumber message args st :
  level < 0 \/ 7 < level \/ file = None \/ message = None ->
  Logger (logger_log now level file linenumber message args st) = Logger st
  /\ logger_factory_file_file (logger_log now level file linenumber message args st)
     = logger_factory_file_file st
  /\ world (logger_log now level file linenumber message args st)
     = stderr_write ("Could not log message - empty or outside log levels" ++ LF) (world st)
  /\ trace (logger_log now level file linenumber message args st)
     = (trace st
        ++ [EvDiag ("Could not log message - empty or outside log levels" ++ LF)])%list
  /\ transform_calls (logger_log now level file linenumber message args st)
     = transform_calls st
  /\ output_calls (logger_log now level file linenumber message args st)
     = output_calls st.
Proof.
  intros H. rewrite logger_log_invalid by exact H.
  repeat split; apply diag_calls.
Qed.

Lemma log_rejects_invalid_arguments_witness :
  trace (logger_log 1633035745 8 (Some "main.c") 12 (Some "hello") [] Sample.console_debug)
  = [EvDiag ("Could not log message - empty or outside log levels" ++ LF)]
  /\ world (logger_log 1633035745 LOGGER_INFO None 12 (Some "hello") [] Sample.console_debug)
     = stderr_write ("Could not log message - empty or outside log levels" ++ LF)
                    (world Sample.console_debug).
Proof.
  split.
  - apply (log_rejects_invalid_arguments 1633035745 8 (Some "main.c") 12 (Some "hello") []
             Sample.console_debug).
    right; left; lia.
  - apply (log_rejects_invalid_arguments 1633035745 LOGGER_INFO None 12 (Some "hello") []
             Sample.console_debug).
    right; right; left; reflexivity.
Defined.

(** ** C10: an empty pre-formatted message *)

(** C10.  A log call that passes validation and the filter, and whose
    interpolation returns a count below one, writes one diagnostic line
    and stops: neither the transformer nor the sink is invoked and the
    context is unchanged. *)
Theorem log_drops_empty_message now level file linenumber message args st
    message_buffer n :
  0 <= level <= 7 ->
  level <= Logger_log_level st ->
  Logger_is_active st = true ->
  vsnprintf LOGGER_MESSAGE_BUFFER message args = Some (message_buffer, n) ->
  n < 1 ->
  logger_log now level (Some file) linenumber (Some message) args st
    = diag ("Could not log message - pre-formatting returned 0 bytes" ++ LF) st
  /\ trace (logger_log now level (Some file) linenumber (Some message) args st)
     = (trace st
        ++ [EvDiag ("Could not log message - pre-formatting returned 0 bytes" ++ LF)])%list
  /\ transform_calls (logger_log now level (Some file) linenumber (Some message) args st)
     = transform_calls st
  /\ output_calls (logger_log now level (Some file) linenumber (Some message) args st)
     = output_calls st.
Proof.
  intros Hr Hl Ha Hf Hn.
  rewrite logger_log_passed by assumption. rewrite Hf.
  destruct (Z.ltb_spec n 1); [|lia].
  repeat split; apply diag_calls.
Qed.

Lemma log_drops_empty_message_witness :
  trace (logger_log 1633035745 LOGGER_INFO (Some "main.c") 12 (Some "%s") [Str ""]
                    Sample.console_debug)
  = (trace Sample.console_debug
     ++ [EvDiag ("Could not log message - pre-formatting returned 0 bytes" ++ LF)])%list.
Proof.
  apply (log_drops_empty_message 1633035745 LOGGER_INFO "main.c" 12 "%s" [Str ""]
           Sample.console_debug "" 0).
  - unfold LOGGER_INFO; lia.
  - vm_compute; congruence.
  - reflexivity.
  - reflexivity.
  - lia.
Defined.

(** ** C3: setup validation *)

(** C3.  Setup with a threshold outside [0,7], or without a sink function,
    or without a transformer, returns a status that is at most zero and
    leaves the whole state, and so every field of the context, as it
    was. *)
Theorem setup_rejects_without_mutation level output_data output transform active st :
  level < 0 \/ 7 < level \/ output = None \/ transform = None ->
  fst (logger_setup_context level output_data output transform active st) <= 0
  /\ snd (logger_setup_context level output_data output transform active st) = st
  /\ Logger (snd (logger_setup_context level output_data output transform active st))
     = Logger st.
Proof.
  intros H. unfold logger_setup_context.
  destruct (Z.ltb_spec level 0), (Z.gtb_spec level 7); simpl;
    try (repeat split; lia).
  destruct output as [o|], transform as [t|]; simpl; try (repeat split; lia).
  exfalso. destruct H as [?|[?|[?|?]]]; try lia; discriminate.
Qed.

Lemma setup_rejects_without_mutation_witness :
  fst (logger_setup_context (-1) NullObject (Some logger_factory_console_output)
         (Some logger_factory_console_transform) true Sample.console_debug) <= 0
  /\ snd (logger_setup_context LOGGER_DEBUG NullObject None
            (Some logger_factory_console_transform) true Sample.console_debug)
     = Sample.console_debug
  /\ Logger (snd (logger_setup_context LOGGER_DEBUG NullObject
                    (Some logger_factory_console_output) None true Sample.console_debug))
     = Logger Sample.console_debug.
Proof.
  split; [|split].
  - apply (setup_rejects_without_mutation (-1) NullObject
             (Some logger_factory_console_output)
             (Some logger_factory_console_transform) true Sample.console_debug).
    left; lia.
  - apply (setup_rejects_without_mutation LOGGER_DEBUG NullObject None
             (Some logger_factory_console_transform) true Sample.console_debug).
    right; right; left; reflexivity.
  - apply (setup_rejects_without_mutation LOGGER_DEBUG NullObject
             (Some logger_factory_console_output) None true Sample.console_debug).
    right; right; right; reflexivity.
Defined.

(** ** C8: toggle *)

Lemma logger_toggle_eq set_active st :
  logger_toggle set_active st
  = set_Logger (mkContext (Logger_log_level st) (Logger_output_object st)
                          (Logger_output_function st) (Logger_transform_function st)
                          set_active) st.
Proof.
  unfold logger_toggle.
  destruct (Bool.eqb_spec set_active (Logger_is_active st)) as [->|]; [|reflexivity].
  destruct st as [[]]; reflexivity.
Qed.

(** C8.  For every state and every boolean [b]: after [toggle b] the
    status getter returns [b]; no other field of the context, and nothing
    outside it, changes; toggling to the current value leaves the state as
    it is; and toggling twice to [b] equals toggling once. *)
Theorem toggle_sets_flag_idempotent b st :
  logger_get_status (logger_toggle b st) = b
  /\ Logger_log_level (logger_toggle b st) = Logger_log_level st
  /\ Logger_output_object (logger_toggle b st) = Logger_output_object st
  /\ Logger_output_function (logger_toggle b st) = Logger_output_function st
  /\ Logger_transform_function (logger_toggle b st) = Logger_transform_function st
  /\ world (logger_toggle b st) = world st
  /\ trace (logger_toggle b st) = trace st
  /\ (b = logger_get_status st -> logger_toggle b st = st)
  /\ logger_toggle b (logger_toggle b st) = logger_toggle b st.
Proof.
  repeat split; try (rewrite logger_toggle_eq; reflexivity).
  - intros ->. unfold logger_toggle, logger_get_status.
    by rewrite Bool.eqb_reflx.
  - rewrite (logger_toggle_eq b (logger_toggle b st)).
    rewrite (logger_toggle_eq b st). reflexivity.
Qed.

Lemma toggle_sets_flag_idempotent_witness :
  logger_get_status (logger_toggle false Sample.console_debug) = false
  /\ logger_toggle true Sample.console_debug = Sample.console_debug.
Proof.
  split.
  - apply (toggle_sets_flag_idempotent false Sample.console_debug).
  - destruct (toggle_sets_flag_idempotent true Sample.console_debug)
      as (_ & _ & _ & _ & _ & _ & _ & H & _).
    apply H. reflexivity.
Defined.

(** ** C2: a transformer that fails *)

(** What line 197 does with a null result: it is handed to the sink. *)
Lemma null_transform_still_delivered now level file linenumber message args st
    transform output message_buffer n w1 :
  0 <= level <= 7 ->
  level <= Logger_log_level st ->
  Logger_is_active st = true ->
  vsnprintf LOGGER_MESSAGE_BUFFER message args = Some (message_buffer, n) ->
  1 <= n ->
  Logger_transform_function st = Some transform ->
  Logger_output_function st = Some output ->
  transform now level (Some file) linenumber (Some message_buffer) (world st) = (None, w1) ->
  EvOutput (Logger_output_object st) None
    ∈ trace (logger_log now level (Some file) linenumber (Some message) args st).
Proof.
  intros Hr Hl Ha Hf Hn Ht Ho Hnull.
  rewrite (logger_log_dispatch_trace now level file linenumber message args st
             transform output message_buffer n) by assumption.
  rewrite Hnull; simpl.
  apply elem_of_app; right. apply elem_of_cons; right. apply elem_of_cons; left.
  reflexivity.
Qed.

(** C2 (the code departs from the claim).  With a transformer that returns
    null, the dispatch does not stop after the transform step: the sink is
    invoked with the null message, no diagnostic is written, and the
    console sink's [fprintf] on a null format is undefined. *)
Theorem null_transform_reaches_sink :
  trace (logger_log 1633035745 LOGGER_INFO (Some "main.c") 12 (Some "hello") []
                    Sample.reject_debug)
  = [EvTransform 1633035745 LOGGER_INFO (Some "main.c") 12 "hello";
     EvOutput StdoutStream None]
  /\ output_calls (logger_log 1633035745 LOGGER_INFO (Some "main.c") 12 (Some "hello") []
                     Sample.reject_debug) = 1%nat
  /\ w_stderr (world (logger_log 1633035745 LOGGER_INFO (Some "main.c") 12 (Some "hello") []
                        Sample.reject_debug)) = []
  /\ w_undefined (world (logger_log 1633035745 LOGGER_INFO (Some "main.c") 12
                           (Some "hello") [] Sample.reject_debug)) = true.
Proof. repeat split. Qed.

(** ** C4: single-field mutation and the initialized predicate *)

Lemma set_output_callback_keeps_initialized new_output st :
  logger_is_initialized st = true ->
  0 < fst (logger_set_output_callback new_output st) ->
  logger_is_initialized (snd (logger_set_output_callback new_output st)) = true.
Proof.
  unfold logger_set_output_callback, logger_is_initialized.
  destruct st as [[l o f t a] ff w tr]; unfold Logger_output_function,
    Logger_transform_function, Logger_log_level; simpl.
  destruct f, new_output, t; simpl; intros; try lia; try discriminate; assumption.
Qed.

Lemma set_transform_keeps_initialized new_transform st :
  logger_is_initialized st = true ->
  0 < fst (logger_set_transform new_transform st) ->
  logger_is_initialized (snd (logger_set_transform new_transform st)) = true.
Proof.
  unfold logger_set_transform, logger_is_initialized.
  destruct st as [[l o f t a] ff w tr]; unfold Logger_output_function,
    Logger_transform_function, Logger_log_level; simpl.
  destruct f, new_transform, t; simpl; intros; try lia; try discriminate; assumption.
Qed.

Lemma toggle_keeps_initialized set_active st :
  logger_is_initialized (logger_toggle set_active st) = logger_is_initialized st.
Proof. rewrite logger_toggle_eq. reflexivity. Qed.

Lemma set_loglevel_in_range_keeps_initialized level st :
  logger_is_initialized st = true ->
  level <= LOGGER_DEBUG ->
  0 < fst (logger_set_loglevel level st) ->
  logger_is_initialized (snd (logger_set_loglevel level st)) = true.
Proof.
  unfold logger_set_loglevel, logger_is_initialized, LOGGER_DEBUG, LOGGER_EMERGENCY.
  destruct st as [[l o f t a] ff w tr]; unfold Logger_output_function,
    Logger_transform_function, Logger_log_level; simpl.
  intros Hi Hl.
  destruct (Z.ltb_spec level 0), (Z.eqb_spec l level); simpl; try lia.
  intros _. destruct t, f; simpl in *; try discriminate.
  zcases; simpl; try reflexivity; lia.
Qed.

(** C4 (the code departs from the claim).  On an initialized context,
    [logger_set_loglevel 8] reports success and stores 8, after which the
    initialized predicate is false: the setter checks the lower bound of
    the range only. *)
Theorem set_loglevel_breaks_initialized :
  logger_is_initialized Sample.console_debug = true
  /\ fst (logger_set_loglevel 8 Sample.console_debug) = 1
  /\ Logger_log_level (snd (logger_set_loglevel 8 Sample.console_debug)) = 8
  /\ logger_is_initialized (snd (logger_set_loglevel 8 Sample.console_debug)) = false.
Proof. repeat split. Qed.

(** ** C6: setters before any setup *)

(** The claim as stated fails: on the zero-valued context, [toggle true]
    sets the flag. *)
Lemma setters_before_setup_counterexample :
  Logger Sample.fresh = Logger_zero
  /\ Logger (logger_toggle true Sample.fresh) <> Logger Sample.fresh.
Proof.
  split; [reflexivity|].
  intros H. apply (f_equal is_active) in H. discriminate H.
Qed.

(** C6 (amended).  On a context that is still zero-valued, setting the
    sink function and setting the transformer return 0 and leave the state
    as it was; [toggle b], which returns no status, stores [b] in the
    active flag and changes no other field, so the context stays
    uninitialized. *)
Theorem setters_before_setup st :
  Logger st = Logger_zero ->
  (forall new_output, logger_set_output_callback new_output st = (0, st))
  /\ (forall new_transform, logger_set_transform new_transform st = (0, st))
  /\ (forall b, Logger (logger_toggle b st) = mkContext 0 NullObject None None b
                /\ logger_is_initialized (logger_toggle b st) = false).
Proof.
  intros H. repeat split.
  - unfold logger_set_output_callback, Logger_output_function. by rewrite H.
  - unfold logger_set_transform, Logger_output_function. by rewrite H.
  - rewrite logger_toggle_eq. unfold Logger_log_level, Logger_output_object,
      Logger_output_function, Logger_transform_function. by rewrite H.
  - rewrite toggle_keeps_initialized. unfold logger_is_initialized,
      Logger_transform_function. by rewrite H.
Qed.

Lemma setters_before_setup_witness :
  logger_set_output_callback (Some logger_factory_console_output) Sample.fresh
    = (0, Sample.fresh)
  /\ logger_set_transform (Some logger_factory_csv_transform) Sample.fresh
    = (0, Sample.fresh)
  /\ Logger (logger_toggle true Sample.fresh) = mkContext 0 NullObject None None true.
Proof.
  destruct (setters_before_setup Sample.fresh) as (H1 & H2 & H3); [reflexivity|].
  split; [apply H1 | split; [apply H2 | apply H3]].
Defined.

(** ** C5: the truncation boundary *)

Lemma str_take_length n s :
  String.length (str_take n s) = Nat.min n (String.length s).
Proof.
  revert s. induction n as [|n IH]; intros [|c s]; simpl; try reflexivity.
  by rewrite IH.
Qed.

Lemma str_take_all n s :
  (String.length s <= n)%nat -> str_take n s = s.
Proof.
  revert s. induction n as [|n IH]; intros [|c s]; simpl; intros H;
    try reflexivity; try lia.
  rewrite IH; [reflexivity | lia].
Qed.

Lemma str_take_cut n s :
  (n < String.length s)%nat ->
  String.length (str_take n s) = n /\ str_take n s <> s.
Proof.
  intros H. assert (Hl : String.length (str_take n s) = n)
    by (rewrite str_take_length; lia).
  split; [exact Hl|]. intros E. rewrite E in Hl. lia.
Qed.

Lemma snprintf_fits size fmt args text :
  format fmt args = Some text ->
  Z.of_nat (String.length text) <= INT_MAX ->
  snprintf size fmt args
  = Some (str_take (size - 1) text, Z.of_nat (String.length text)).
Proof.
  intros Hf Hl. unfold snprintf. rewrite Hf.
  destruct (Z.gtb_spec (Z.of_nat (String.length text)) INT_MAX); [lia | reflexivity].
Qed.

(** The claim as stated fails: a message of exactly 2048 characters
    reaches the transformer (and, through the identity transformer, the
    sink) cut to 2047. *)
Lemma truncation_boundary_counterexample :
  String.length (Sample.repeat_char 2048 "a") = LOGGER_MESSAGE_BUFFER
  /\ trace (logger_log 1633035745 LOGGER_INFO (Some "main.c") 12
                       (Some (Sample.repeat_char 2048 "a")) [] Sample.identity_debug)
     = [EvTransform 1633035745 LOGGER_INFO (Some "main.c") 12
                    (Sample.repeat_char 2047 "a");
        EvOutput StdoutStream (Some (Sample.repeat_char 2047 "a"))]
  /\ Sample.repeat_char 2047 "a" <> Sample.repeat_char 2048 "a".
Proof.
  split; [vm_compute; reflexivity|]. split; [vm_compute; reflexivity|].
  intros H. apply (f_equal String.length) in H. vm_compute in H. lia.
Qed.

(** C5 (amended).  The buffer of [LOGGER_MESSAGE_BUFFER] bytes holds the
    terminator too.  For a log call that passes validation and the filter
    and whose interpolated text is non-empty: the transformer is invoked
    on the first [LOGGER_MESSAGE_BUFFER - 1] characters of the text, in
    the environment as it was before the call, and the only diagnostic
    the call can add is the one for a failed push.  A text of at most
    [LOGGER_MESSAGE_BUFFER - 1] characters arrives in full; a longer one
    arrives cut to exactly that length. *)
Theorem truncation_boundary now level file linenumber message args st
    transform output text :
  0 <= level <= 7 ->
  level <= Logger_log_level st ->
  Logger_is_active st = true ->
  Logger_transform_function st = Some transform ->
  Logger_output_function st = Some output ->
  format message args = Some text ->
  (1 <= String.length text)%nat ->
  Z.of_nat (String.length text) <= INT_MAX ->
  trace (logger_log now level (Some file) linenumber (Some message) args st)
  = (trace st
     ++ [EvTransform now level (Some file) linenumber
                     (str_take (LOGGER_MESSAGE_BUFFER - 1) text);
         EvOutput (Logger_output_object st)
                  (fst (transform now level (Some file) linenumber
                          (Some (str_take (LOGGER_MESSAGE_BUFFER - 1) text)) (world st)))]
     ++ (if fst (output (Logger_output_object st)
                   (fst (transform now level (Some file) linenumber
                           (Some (str_take (LOGGER_MESSAGE_BUFFER - 1) text)) (world st)))
                   (snd (transform now level (Some file) linenumber
                           (Some (str_take (LOGGER_MESSAGE_BUFFER - 1) text)) (world st))))
            <? 1
         then [EvDiag ("Could not log message - push function failed" ++ LF)]
         else []))%list
  /\ ((String.length text <= LOGGER_MESSAGE_BUFFER - 1)%nat ->
      str_take (LOGGER_MESSAGE_BUFFER - 1) text = text)
  /\ ((LOGGER_MESSAGE_BUFFER - 1 < String.length text)%nat ->
      String.length (str_take (LOGGER_MESSAGE_BUFFER - 1) text)
        = (LOGGER_MESSAGE_BUFFER - 1)%nat
      /\ str_take (LOGGER_MESSAGE_BUFFER - 1) text <> text).
Proof.
  intros Hr Hl Ha Ht Ho Hf Hne Hmax.
  split; [|split].
  - apply (logger_log_dispatch_trace now level file linenumber message args st
             transform output _ (Z.of_nat (String.length text))); try assumption; [|lia].
    unfold vsnprintf. by apply snprintf_fits.
  - apply str_take_all.
  - apply str_take_cut.
Qed.

Lemma truncation_boundary_witness :
  trace (logger_log 1633035745 LOGGER_INFO (Some "main.c") 12
                    (Some (Sample.repeat_char 2047 "a")) [] Sample.identity_debug)
  = [EvTransform 1633035745 LOGGER_INFO (Some "main.c") 12 (Sample.repeat_char 2047 "a");
     EvOutput StdoutStream (Some (Sample.repeat_char 2047 "a"))]
  /\ String.length (str_take (LOGGER_MESSAGE_BUFFER - 1) (Sample.repeat_char 2049 "a"))
     = (LOGGER_MESSAGE_BUFFER - 1)%nat.
Proof.
  split.
  - destruct (truncation_boundary 1633035745 LOGGER_INFO "main.c" 12
                (Sample.repeat_char 2047 "a") [] Sample.identity_debug
                Sample.identity_transform logger_factory_console_output
                (Sample.repeat_char 2047 "a")) as (H & _).
    + unfold LOGGER_INFO; lia.
    + vm_compute; congruence.
    + reflexivity.
    + reflexivity.
    + reflexivity.
    + vm_compute; reflexivity.
    + vm_compute; lia.
    + vm_compute; congruence.
    + rewrite H. vm_compute. reflexivity.
  - destruct (truncation_boundary 1633035745 LOGGER_INFO "main.c" 12
                (Sample.repeat_char 2049 "a") [] Sample.identity_debug
                Sample.identity_transform logger_factory_console_output
                (Sample.repeat_char 2049 "a")) as (_ & _ & H).
    + unfold LOGGER_INFO; lia.
    + vm_compute; congruence.
    + reflexivity.
    + reflexivity.
    + reflexivity.
    + vm_compute; reflexivity.
    + vm_compute; lia.
    + vm_compute; congruence.
    + apply H. vm_compute. lia.
Defined.

(** ** C9: the header of the tabular preset *)

Lemma decimal_starts_numeric z rest : starts_numeric (decimal z ++ rest) = true.
Proof.
  assert (Hu : forall d, d <> Decimal.Nil ->
            starts_numeric (NilEmpty.string_of_uint d ++ rest) = true)
    by (intros [] H; try reflexivity; congruence).
  assert (Hz : forall d, d <> Decimal.Nil ->
            NilZero.string_of_uint d = NilEmpty.string_of_uint d)
    by (intros [] H; try reflexivity; congruence).
  unfold decimal. destruct z as [|p|p]; simpl; try reflexivity.
  rewrite Hz by apply DecimalPos.Unsigned.to_uint_nonnil.
  apply Hu, DecimalPos.Unsigned.to_uint_nonnil.
Qed.

Lemma starts_numeric_take n s :
  starts_numeric s = true -> starts_numeric (str_take (S n) s) = true.
Proof. destruct s; [discriminate | exact id]. Qed.

Lemma starts_numeric_format s args text :
  starts_numeric s = true -> format s args = Some text -> starts_numeric text = true.
Proof.
  destruct s as [|c r]; [discriminate|]. intros Hc.
  assert (E : format (String c r) args = String c <$> format r args).
  { destruct c as [[] [] [] [] [] [] [] []]; try reflexivity.
    vm_compute in Hc. discriminate Hc. }
  rewrite E. destruct (format r args); simpl; [|discriminate].
  intros [= <-]. exact Hc.
Qed.

Lemma starts_numeric_not_header s : starts_numeric s = true -> s <> csv_header.
Proof. intros H ->. discriminate H. Qed.

Lemma format_csv_record timestamp name file filenumber message :
  format ("%ld,%s,%s,%i,%s" ++ LF)
         [Long timestamp; Str name; Str file; Int filenumber; Str message]
  = Some (decimal timestamp ++ "," ++ name ++ "," ++ file ++ ","
          ++ decimal filenumber ++ "," ++ message ++ LF).
Proof. reflexivity. Qed.

(** A record produced by the tabular transformer begins with the
    timestamp, and the transformer leaves the files alone. *)
Lemma csv_transform_result timestamp level file filenumber message w :
  w_files (snd (logger_factory_csv_transform timestamp level file filenumber message w))
    = w_files w
  /\ forall r,
      fst (logger_factory_csv_transform timestamp level file filenumber message w) = Some r ->
      starts_numeric r = true.
Proof.
  unfold logger_factory_csv_transform.
  destruct (_ || _ || _ || _); [split; [reflexivity | discriminate]|].
  unfold snprintf. rewrite format_csv_record.
  match goal with
  | |- context [str_take _ ?s] =>
      assert (Hs : starts_numeric (str_take (LOGGER_MESSAGE_BUFFER - 1) s) = true)
        by apply (starts_numeric_take 2046), decimal_starts_numeric;
      revert Hs; generalize (str_take (LOGGER_MESSAGE_BUFFER - 1) s);
      generalize (String.length s)
  end.
  intros len cut Hcut.
  destruct (_ >? INT_MAX); [split; [reflexivity | discriminate]|].
  destruct (_ <? 1); [split; [reflexivity | discriminate]|].
  split; [reflexivity|]. intros r [= <-]. exact Hcut.
Qed.

(** The console sink on a file stream appends at most one chunk, the
    rendering of the message it was given. *)
Lemma console_output_file path message w :
  w_files (snd (logger_factory_console_output (FileStream path) message w)) = w_files w
  \/ exists m text,
       message = Some m /\ format m [] = Some text
       /\ w_files (snd (logger_factory_console_output (FileStream path) message w))
          = <[path := (default [] (w_files w !! path) ++ [text])%list]> (w_files w).
Proof.
  unfold logger_factory_console_output, fprintf; simpl.
  destruct message as [m|]; [|left; reflexivity].
  destruct (format m []) as [text|] eqn:E; [|left; reflexivity].
  destruct (decide _); [|left; reflexivity].
  right. exists m, text. auto.
Qed.

(** With both function pointers set, one log call either leaves the files
    alone or goes through the two callbacks; it never changes the
    context. *)
Lemma logger_log_effect now level file linenumber message args st transform output :
  Logger_transform_function st = Some transform ->
  Logger_output_function st = Some output ->
  Logger (logger_log now level file linenumber message args st) = Logger st
  /\ (w_files (world (logger_log now level file linenumber message args st))
        = w_files (world st)
      \/ exists message_buffer,
           w_files (world (logger_log now level file linenumber message args st))
           = w_files
               (snd (output (Logger_output_object st)
                       (fst (transform now level file linenumber
                               (Some message_buffer) (world st)))
                       (snd (transform now level file linenumber
                               (Some message_buffer) (world st)))))).
Proof.
  intros Ht Ho. unfold logger_log. rewrite Ht.
  destruct (_ || _ || _ || _); [split; [reflexivity | left; reflexivity]|].
  destruct (_ || _); [split; [reflexivity | left; reflexivity]|].
  destruct (vsnprintf _ _ _) as [[message_buffer n]|];
    [|split; [reflexivity | left; reflexivity]].
  destruct (n <? 1); [split; [reflexivity | left; reflexivity]|].
  destruct (transform _ _ _ _ _ _) as [formatted w1] eqn:E1.
  rewrite Ho.
  destruct (output _ _ _) as [status w2] eqn:E2.
  split; [destruct (status <? 1); reflexivity|].
  right. exists message_buffer.
  rewrite E1; simpl. rewrite E2; simpl.
  destruct (status <? 1); reflexivity.
Qed.

(** While the tabular preset is in place, a log call keeps the header in
    front and adds at most one record, which begins with a timestamp. *)
Lemma csv_log_step level path now severity file linenumber message args st records :
  Logger st = csv_context level path ->
  w_files (world st) !! path = Some (csv_header :: records) ->
  Forall (fun r => starts_numeric r = true) records ->
  exists records',
    Logger (logger_log now severity file linenumber message args st)
      = csv_context level path
    /\ w_files (world (logger_log now severity file linenumber message args st)) !! path
       = Some (csv_header :: records')
    /\ Forall (fun r => starts_numeric r = true) records'
    /\ (length records' <= S (length records))%nat.
Proof.
  intros HL Hf Hr.
  destruct (logger_log_effect now severity file linenumber message args st
              logger_factory_csv_transform logger_factory_console_output)
    as [HL' [Hsame | (message_buffer & Hw)]];
    try (unfold Logger_transform_function, Logger_output_function; by rewrite HL).
  - exists records. rewrite HL', Hsame. repeat split; auto.
  - unfold Logger_output_object in Hw. rewrite HL in Hw.
    cbn [output_object csv_context] in Hw.
    destruct (csv_transform_result now severity file linenumber (Some message_buffer)
                (world st)) as [Hfiles Hnum].
    destruct (console_output_file path
                (fst (logger_factory_csv_transform now severity file linenumber
                        (Some message_buffer) (world st)))
                (snd (logger_factory_csv_transform now severity file linenumber
                        (Some message_buffer) (world st))))
      as [Hsame | (m & text & Hm & Htext & Happ)].
    + exists records. rewrite HL', Hw, Hsame, Hfiles. repeat split; auto.
    + exists (records ++ [text])%list.
      rewrite HL', Hw, Happ, Hfiles, Hf, lookup_insert_eq. simpl.
      split; [exact HL|]. split; [reflexivity|]. split.
      * apply Forall_app; split; [exact Hr|].
        apply Forall_singleton.
        apply (starts_numeric_format m [] text); [apply Hnum; exact Hm | exact Htext].
      * rewrite length_app; simpl; lia.
Qed.

Lemma csv_log_all level path calls : forall st records,
  Logger st = csv_context level path ->
  w_files (world st) !! path = Some (csv_header :: records) ->
  Forall (fun r => starts_numeric r = true) records ->
  exists records',
    w_files (world (logger_log_all calls st)) !! path = Some (csv_header :: records')
    /\ Forall (fun r => starts_numeric r = true) records'
    /\ (length records' <= length records + length calls)%nat.
Proof.
  induction calls as [|c calls IH]; intros st records HL Hf Hr; simpl.
  - exists records. repeat split; auto. lia.
  - destruct (csv_log_step level path (call_now c) (call_level c) (call_file c)
                (call_line c) (call_message c) (call_args c) st records HL Hf Hr)
      as (records1 & HL1 & Hf1 & Hr1 & Hlen1).
    destruct (IH _ records1 HL1 Hf1 Hr1) as (records2 & Hf2 & Hr2 & Hlen2).
    exists records2. repeat split; auto. lia.
Qed.

(** A successful file preset: a fresh, empty, open destination and the
    console callbacks. *)
Lemma logger_factory_file_success level file_path st code st1 :
  logger_factory_file level file_path st = (code, st1) ->
  0 < code ->
  exists path,
    file_path = Some path
    /\ code = 1
    /\ Logger st1 = mkContext level (FileStream path) (Some logger_factory_console_output)
                              (Some logger_factory_console_transform) true
    /\ logger_factory_file_file st1 = Some path
    /\ w_files (world st1) !! path = Some []
    /\ path ∈ w_open (world st1).
Proof.
  unfold logger_factory_file. intros H Hc.
  destruct file_path as [path|]; [|inversion H; subst; lia].
  cbn [is_null orb default from_option id] in H.
  destruct ((level <? LOGGER_EMERGENCY) || (level >? LOGGER_DEBUG)) eqn:G;
    [inversion H; subst; lia|].
  revert H. generalize (match logger_factory_file_file st with
                        | Some f => set_world (fclose f (world st)) st
                        | None => st
                        end).
  intros st' H. unfold fopen_w in H.
  destruct (decide (path ∈ w_unwritable (world st'))); [inversion H; subst; lia|].
  unfold atexit in H; cbn in H.
  destruct (w_atexit_free (world st')); cbn in H; [inversion H; subst; lia|].
  unfold logger_setup_context in H.
  change ((level <? 0) || (level >? 7)) with
    ((level <? LOGGER_EMERGENCY) || (level >? LOGGER_DEBUG)) in H.
  rewrite G in H; cbn in H. inversion H; subst; clear H.
  exists path. cbn. repeat split.
  - apply lookup_insert_eq.
  - apply elem_of_union_l, elem_of_singleton. reflexivity.
Qed.

(** A failed file preset writes nothing: every file is as before, or was
    emptied by the attempt to open it. *)
Lemma logger_factory_file_failure level file_path st code st1 :
  logger_factory_file level file_path st = (code, st1) ->
  code <= 0 ->
  forall q, file_content q st1 = file_content q st \/ file_content q st1 = [].
Proof.
  unfold logger_factory_file, file_content. intros H Hc q.
  destruct file_path as [path|]; [|inversion H; subst; left; reflexivity].
  cbn [is_null orb default from_option id] in H.
  destruct ((level <? LOGGER_EMERGENCY) || (level >? LOGGER_DEBUG)) eqn:G;
    [inversion H; subst; left; reflexivity|].
  assert (Hpre : w_files (world (match logger_factory_file_file st with
                                 | Some f => set_world (fclose f (world st)) st
                                 | None => st
                                 end)) = w_files (world st)).
  { destruct (logger_factory_file_file st); [|reflexivity].
    unfold fclose; cbn. destruct (decide _); reflexivity. }
  revert H Hpre. generalize (match logger_factory_file_file st with
                             | Some f => set_world (fclose f (world st)) st
                             | None => st
                             end).
  intros st' H Hpre. unfold fopen_w in H.
  destruct (decide (path ∈ w_unwritable (world st')));
    [inversion H; subst; cbn; rewrite Hpre; left; reflexivity|].
  unfold atexit in H; cbn in H.
  destruct (w_atexit_free (world st')); cbn in H.
  - inversion H; subst; clear H. unfold fclose; cbn.
    destruct (decide _); cbn; rewrite Hpre;
      (destruct (decide (path = q)) as [->|Hne];
       [right; by rewrite lookup_insert_eq | left; by rewrite lookup_insert_ne]).
  - unfold logger_setup_context in H.
    change ((level <? 0) || (level >? 7)) with
      ((level <? LOGGER_EMERGENCY) || (level >? LOGGER_DEBUG)) in H.
    rewrite G in H; cbn in H. inversion H; subst. lia.
Qed.

(** What the tabular preset leaves behind when it succeeds. *)
Lemma logger_factory_csv_success level file_path st code st1 :
  logger_factory_csv level file_path st = (code, st1) ->
  0 < code ->
  exists path,
    file_path = Some path
    /\ Logger st1 = csv_context level path
    /\ w_files (world st1) !! path = Some [csv_header].
Proof.
  unfold logger_factory_csv. intros H Hc.
  destruct (logger_factory_file level file_path st) as [ret_code st'] eqn:E.
  destruct (Z.leb_spec ret_code 0); [inversion H; subst; lia|].
  destruct (logger_factory_file_success _ _ _ _ _ E)
    as (path & -> & -> & HL & Hff & Hfiles & Hopen); [lia|].
  exists path. inversion H; subst; clear H.
  unfold logger_set_transform, Logger_output_function, Logger_log_level,
    Logger_output_object, Logger_is_active.
  rewrite HL; cbn. rewrite Hff.
  unfold fprintf. change (format csv_header []) with (Some csv_header).
  cbn. destruct (decide _) as [_|Hn]; [|contradiction].
  cbn. rewrite Hfiles, lookup_insert_eq. repeat split.
Qed.

(** C9.  When the tabular preset succeeds on a path, the destination
    holds the header record as its first chunk, and after any number of
    further log calls (in an execution that stays defined) it holds the
    header followed by at most one chunk per call, none of which is the
    header: the header is there exactly once, in front.  When the preset
    fails, nothing is written: every file is as it was or was emptied by
    the attempt to open it. *)
Theorem csv_header_written_once level file_path st code st1 :
  logger_factory_csv level file_path st = (code, st1) ->
  (0 < code ->
   exists path,
     file_path = Some path
     /\ file_content path st1 = [csv_header]
     /\ forall calls,
         w_undefined (world (logger_log_all calls st1)) = false ->
         exists records,
           file_content path (logger_log_all calls st1) = csv_header :: records
           /\ (csv_header ∉ records)
           /\ (length records <= length calls)%nat)
  /\ (code <= 0 ->
      forall q, file_content q st1 = file_content q st \/ file_content q st1 = []).
Proof.
  intros H. split.
  - intros Hc.
    destruct (logger_factory_csv_success _ _ _ _ _ H Hc) as (path & -> & HL & Hf).
    exists path. split; [reflexivity|]. unfold file_content.
    split; [by rewrite Hf|].
    intros calls _.
    destruct (csv_log_all level path calls st1 [] HL Hf (List.Forall_nil _))
      as (records & Hf' & Hr & Hlen).
    exists records. rewrite Hf'. split; [reflexivity|]. split; [|exact Hlen].
    intros Hin. rewrite Forall_forall in Hr.
    exact (starts_numeric_not_header _ (Hr _ Hin) eq_refl).
  - intros Hc. unfold logger_factory_csv in H.
    destruct (logger_factory_file level file_path st) as [ret_code st'] eqn:E.
    destruct (Z.leb_spec ret_code 0) as [Hle|Hgt]; inversion H; subst; [|lia].
    exact (logger_factory_file_failure _ _ _ _ _ E Hle).
Qed.

Lemma csv_header_written_once_witness :
  exists records,
    file_content "out.csv" (logger_log_all Sample.two_calls Sample.csv_debug)
      = csv_header :: records
    /\ (csv_header ∉ records)
    /\ (length records <= 2)%nat.
Proof.
  destruct (csv_header_written_once LOGGER_DEBUG (Some "out.csv") Sample.fresh 1
              Sample.csv_debug) as [Hok _]; [reflexivity|].
  destruct Hok as (path & Hp & _ & Hcalls); [lia|].
  injection Hp as <-.
  apply (Hcalls Sample.two_calls). vm_compute. reflexivity.
Defined.

Example csv_two_calls_content :
  file_content "out.csv" (logger_log_all Sample.two_calls Sample.csv_debug)
  = [csv_header;
     "1633035745,info,./src/logger.c,486,this is the first test" ++ LF;
     "1633035746,debug,./src/logger.c,487,about to finish the test: 02034020342394827394" ++ LF].
Proof. vm_compute. reflexivity. Qed.

(** * Further properties of the engine *)

(** ** What a log call leaves alone *)

Lemma logger_log_frame now level file linenumber message args st :
  Logger (logger_log now level file linenumber message args st) = Logger st
  /\ logger_factory_file_file (logger_log now level file linenumber message args st)
     = logger_factory_file_file st.
Proof.
  unfold logger_log.
  destruct (_ || _ || _ || _); [split; reflexivity|].
  destruct (_ || _); [split; reflexivity|].
  destruct (vsnprintf _ _ _) as [[message_buffer n]|]; [|split; reflexivity].
  destruct (n <? 1); [split; reflexivity|].
  destruct (Logger_transform_function st) as [transform|]; [|split; reflexivity].
  destruct (transform _ _ _ _ _ _) as [formatted w1].
  destruct (Logger_output_function st) as [output|]; [|split; reflexivity].
  destruct (output _ _ _) as [status w2].
  destruct (status <? 1); split; reflexivity.
Qed.


(** Before any setup the context is zero-valued and inactive: a log call
    with valid arguments is then a no-op, whatever its level. *)
Theorem log_before_setup_is_silent now level file linenumber message args st :
  Logger st = Logger_zero ->
  0 <= level <= 7 ->
  logger_log now level (Some file) linenumber (Some message) args st = st.
Proof.
  intros H Hr. apply logger_log_filtered; [exact Hr|].
  right. unfold Logger_is_active. by rewrite H.
Qed.

Lemma log_before_setup_is_silent_witness :
  logger_log 1633035745 LOGGER_EMERGENCY (Some "main.c") 3 (Some "boot") [] Sample.fresh
  = Sample.fresh.
Proof.
  apply (log_before_setup_is_silent 1633035745 LOGGER_EMERGENCY "main.c" 3 "boot" []
           Sample.fresh).
  - reflexivity.
  - unfold LOGGER_EMERGENCY; lia.
Defined.

(** Switching the zero-valued context on makes an EMERGENCY call reach
    line 197 with both function pointers null: the call goes through a
    null pointer, and neither a diagnostic nor a callback event precedes
    it. *)
Theorem toggle_before_setup_null_call now file linenumber message args st
    message_buffer n :
  Logger st = Logger_zero ->
  vsnprintf LOGGER_MESSAGE_BUFFER message args = Some (message_buffer, n) ->
  1 <= n ->
  w_undefined (world (logger_log now LOGGER_EMERGENCY (Some file) linenumber (Some message)
                                 args (logger_toggle true st))) = true
  /\ trace (logger_log now LOGGER_EMERGENCY (Some file) linenumber (Some message)
                       args (logger_toggle true st)) = trace st.
Proof.
  intros H Hf Hn.
  rewrite logger_log_passed.
  - rewrite Hf. destruct (Z.ltb_spec n 1); [lia|].
    rewrite logger_toggle_eq.
    unfold Logger_transform_function, Logger_log_level, Logger_output_object,
      Logger_output_function. rewrite H. split; reflexivity.
  - unfold LOGGER_EMERGENCY; lia.
  - rewrite logger_toggle_eq. unfold Logger_log_level. rewrite H.
    unfold LOGGER_EMERGENCY; simpl; lia.
  - rewrite logger_toggle_eq. reflexivity.
Qed.

Lemma toggle_before_setup_null_call_witness :
  w_undefined (world (logger_log 1633035745 LOGGER_EMERGENCY (Some "main.c") 3 (Some "boot")
                                 [] (logger_toggle true Sample.fresh))) = true
  /\ trace (logger_log 1633035745 LOGGER_EMERGENCY (Some "main.c") 3 (Some "boot")
                       [] (logger_toggle true Sample.fresh)) = trace Sample.fresh.
Proof.
  apply (toggle_before_setup_null_call 1633035745 "main.c" 3 "boot" [] Sample.fresh
           "boot" 4).
  - reflexivity.
  - reflexivity.
  - lia.
Defined.

(** ** Delivery failure *)

(** When the dispatch reaches the sink, the environment after the call is
    the one the sink left, plus one diagnostic line exactly when the sink
    returned a status below one; the failure goes nowhere else. *)
Theorem push_failure_is_reported now level file linenumber message args st
    transform output message_buffer n :
  0 <= level <= 7 ->
  level <= Logger_log_level st ->
  Logger_is_active st = true ->
  vsnprintf LOGGER_MESSAGE_BUFFER message args = Some (message_buffer, n) ->
  1 <= n ->
  Logger_transform_function st = Some transform ->
  Logger_output_function st = Some output ->
  world (logger_log now level (Some file) linenumber (Some message) args st)
  = (if fst (output (Logger_output_object st)
               (fst (transform now level (Some file) linenumber (Some message_buffer)
                       (world st)))
               (snd (transform now level (Some file) linenumber (Some message_buffer)
                       (world st)))) <? 1
     then stderr_write ("Could not log message - push function failed" ++ LF)
     else id)
      (snd (output (Logger_output_object st)
              (fst (transform now level (Some file) linenumber (Some message_buffer)
                      (world st)))
              (snd (transform now level (Some file) linenumber (Some message_buffer)
                      (world st))))).
Proof.
  intros Hr Hl Ha Hf Hn Ht Ho.
  rewrite logger_log_passed by assumption.
  rewrite Hf, Ht. destruct (Z.ltb_spec n 1); [lia|].
  destruct (transform _ _ _ _ _ _) as [formatted w1]; simpl.
  rewrite Ho.
  destruct (output _ _ _) as [status w2]; simpl.
  destruct (status <? 1); reflexivity.
Qed.

Lemma push_failure_is_reported_witness :
  world (logger_log 1633035745 LOGGER_INFO (Some "main.c") 12 (Some "hello") []
                    Fixture.refusing)
  = stderr_write ("Could not log message - push function failed" ++ LF)
                 (world Fixture.refusing).
Proof.
  apply (push_failure_is_reported 1633035745 LOGGER_INFO "main.c" 12 "hello" []
           Fixture.refusing Sample.identity_transform Fixture.refuse_output "hello" 5).
  - unfold LOGGER_INFO; lia.
  - vm_compute; congruence.
  - reflexivity.
  - reflexivity.
  - lia.
  - reflexivity.
  - reflexivity.
Defined.

(** ** The setters *)

(** For a non-negative level the threshold is that level after the call,
    whether the call returned 1 (changed) or 0 (it was already the
    threshold): a zero status is not always a rejection.  No other field
    changes, and no upper bound is applied. *)
Theorem set_loglevel_stores_level level st :
  0 <= level ->
  Logger (snd (logger_set_loglevel level st))
    = mkContext level (Logger_output_object st) (Logger_output_function st)
                (Logger_transform_function st) (Logger_is_active st)
  /\ (fst (logger_set_loglevel level st) = 0 <-> Logger_log_level st = level)
  /\ (fst (logger_set_loglevel level st) = 1 <-> Logger_log_level st <> level)
  /\ world (snd (logger_set_loglevel level st)) = world st
  /\ trace (snd (logger_set_loglevel level st)) = trace st.
Proof.
  intros H. unfold logger_set_loglevel.
  destruct (Z.ltb_spec level 0); [lia|].
  destruct (Z.eqb_spec (Logger_log_level st) level) as [E|E]; simpl.
  - repeat split; try (intros; lia); try congruence.
    rewrite <- E. by destruct st as [[]].
  - repeat split; try (intros; lia); try congruence.
Qed.

Lemma set_loglevel_stores_level_witness :
  Logger_log_level (snd (logger_set_loglevel 9 Sample.console_debug)) = 9
  /\ fst (logger_set_loglevel LOGGER_DEBUG Sample.console_debug) = 0.
Proof.
  split.
  - destruct (set_loglevel_stores_level 9 Sample.console_debug) as (H & _); [lia|].
    unfold Logger_log_level. rewrite H. reflexivity.
  - destruct (set_loglevel_stores_level LOGGER_DEBUG Sample.console_debug)
      as (_ & H & _); [unfold LOGGER_DEBUG; lia|].
    apply H. reflexivity.
Defined.

(** A negative level is rejected: status 0 and the state as it was. *)
Lemma set_loglevel_negative level st :
  level < 0 -> logger_set_loglevel level st = (0, st).
Proof.
  intros H. unfold logger_set_loglevel.
  destruct (Z.ltb_spec level 0); [reflexivity | lia].
Qed.

(** After a successful change of the transformer, the next dispatched
    call goes through the new transformer and hands its result to the
    sink and the custom object that were configured before. *)
Theorem set_transform_takes_effect new_transform output now level file linenumber
    message args st message_buffer n :
  Logger_output_function st = Some output ->
  0 <= level <= 7 ->
  level <= Logger_log_level st ->
  Logger_is_active st = true ->
  vsnprintf LOGGER_MESSAGE_BUFFER message args = Some (message_buffer, n) ->
  1 <= n ->
  fst (logger_set_transform (Some new_transform) st) = 1
  /\ exists tail,
      trace (logger_log now level (Some file) linenumber (Some message) args
               (snd (logger_set_transform (Some new_transform) st)))
      = (trace st
         ++ EvTransform now level (Some file) linenumber message_buffer
            :: EvOutput (Logger_output_object st)
                 (fst (new_transform now level (Some file) linenumber
                         (Some message_buffer) (world st)))
            :: tail)%list
      /\ count_events is_transform_call tail = 0%nat
      /\ count_events is_output_call tail = 0%nat.
Proof.
  intros Ho Hr Hl Ha Hf Hn.
  unfold logger_set_transform. rewrite Ho. simpl. split; [reflexivity|].
  eexists. split.
  - rewrite (logger_log_dispatch_trace now level file linenumber message args _
               new_transform output message_buffer n); try assumption; reflexivity.
  - destruct (_ <? 1); split; reflexivity.
Qed.

Lemma set_transform_takes_effect_witness :
  fst (logger_set_transform (Some Sample.identity_transform) Sample.console_debug) = 1
  /\ exists tail,
      trace (logger_log 1633035745 LOGGER_INFO (Some "main.c") 12 (Some "hello") []
               (snd (logger_set_transform (Some Sample.identity_transform)
                       Sample.console_debug)))
      = (trace Sample.console_debug
         ++ EvTransform 1633035745 LOGGER_INFO (Some "main.c") 12 "hello"
            :: EvOutput StdoutStream (Some "hello") :: tail)%list
      /\ count_events is_transform_call tail = 0%nat
      /\ count_events is_output_call tail = 0%nat.
Proof.
  apply (set_transform_takes_effect Sample.identity_transform
           logger_factory_console_output 1633035745 LOGGER_INFO "main.c" 12 "hello" []
           Sample.console_debug "hello" 5).
  - reflexivity.
  - unfold LOGGER_INFO; lia.
  - vm_compute; congruence.
  - reflexivity.
  - reflexivity.
  - lia.
Defined.

(** After a successful change of the sink function, the next dispatched
    call delivers through the new function, with the transformer and the
    custom object that were configured before. *)
Theorem set_output_takes_effect new_output old_output transform now level file
    linenumber message args st message_buffer n :
  Logger_output_function st = Some old_output ->
  Logger_transform_function st = Some transform ->
  0 <= level <= 7 ->
  level <= Logger_log_level st ->
  Logger_is_active st = true ->
  vsnprintf LOGGER_MESSAGE_BUFFER message args = Some (message_buffer, n) ->
  1 <= n ->
  fst (logger_set_output_callback (Some new_output) st) = 1
  /\ world (logger_log now level (Some file) linenumber (Some message) args
              (snd (logger_set_output_callback (Some new_output) st)))
     = (if fst (new_output (Logger_output_object st)
                  (fst (transform now level (Some file) linenumber (Some message_buffer)
                          (world st)))
                  (snd (transform now level (Some file) linenumber (Some message_buffer)
                          (world st)))) <? 1
        then stderr_write ("Could not log message - push function failed" ++ LF)
        else id)
         (snd (new_output (Logger_output_object st)
                 (fst (transform now level (Some file) linenumber (Some message_buffer)
                         (world st)))
                 (snd (transform now level (Some file) linenumber (Some message_buffer)
                         (world st))))).
Proof.
  intros Ho Ht Hr Hl Ha Hf Hn.
  unfold logger_set_output_callback. rewrite Ho. simpl. split; [reflexivity|].
  rewrite logger_log_passed by assumption.
  rewrite Hf. destruct (Z.ltb_spec n 1); [lia|].
  unfold Logger_transform_function, Logger_output_function, Logger_output_object in *.
  simpl. rewrite Ht.
  destruct (transform _ _ _ _ _ _) as [formatted w1]; simpl.
  destruct (new_output _ _ _) as [status w2]; simpl.
  destruct (status <? 1); reflexivity.
Qed.

Lemma set_output_takes_effect_witness :
  world (logger_log 1633035745 LOGGER_INFO (Some "main.c") 12 (Some "hello") []
           (snd (logger_set_output_callback (Some Fixture.refuse_output)
                   Sample.identity_debug)))
  = stderr_write ("Could not log message - push function failed" ++ LF)
                 (world Sample.identity_debug).
Proof.
  apply (set_output_takes_effect Fixture.refuse_output logger_factory_console_output
           Sample.identity_transform 1633035745 LOGGER_INFO "main.c" 12 "hello" []
           Sample.identity_debug "hello" 5).
  - reflexivity.
  - reflexivity.
  - unfold LOGGER_INFO; lia.
  - vm_compute; congruence.
  - reflexivity.
  - reflexivity.
  - lia.
Defined.

(** ** What the presets do to the context *)

Lemma logger_factory_file_context level file_path st :
  (fst (logger_factory_file level file_path st) <= 0
   /\ Logger (snd (logger_factory_file level file_path st)) = Logger st)
  \/ exists path,
       0 <= level <= 7
       /\ file_path = Some path
       /\ fst (logger_factory_file level file_path st) = 1
       /\ Logger (snd (logger_factory_file level file_path st))
          = mkContext level (FileStream path) (Some logger_factory_console_output)
                      (Some logger_factory_console_transform) true.
Proof.
  destruct (logger_factory_file level file_path st) as [code st1] eqn:E.
  destruct (Z.lt_ge_cases 0 code) as [Hc|Hc].
  - right.
    destruct (logger_factory_file_success _ _ _ _ _ E Hc)
      as (path & -> & -> & HL & _).
    exists path. split; [|by repeat split].
    unfold logger_factory_file, LOGGER_EMERGENCY, LOGGER_DEBUG in E.
    cbn [is_null orb] in E.
    destruct (Z.ltb_spec level 0), (Z.gtb_spec level 7); cbn [orb] in E;
      try (inversion E; subst; lia).
  - left. split; [cbn; lia|]. revert E. unfold logger_factory_file.
    destruct file_path as [path|]; [|intros [= <- <-]; reflexivity].
    cbn [is_null orb default from_option id].
    destruct ((level <? LOGGER_EMERGENCY) || (level >? LOGGER_DEBUG)) eqn:G;
      [intros [= <- <-]; reflexivity|].
    assert (Hpre : Logger (match logger_factory_file_file st with
                           | Some f => set_world (fclose f (world st)) st
                           | None => st
                           end) = Logger st)
      by (destruct (logger_factory_file_file st); reflexivity).
    revert Hpre. generalize (match logger_factory_file_file st with
                             | Some f => set_world (fclose f (world st)) st
                             | None => st
                             end).
    intros st' Hpre. unfold fopen_w.
    destruct (decide (path ∈ w_unwritable (world st')));
      [intros [= <- <-]; exact Hpre|].
    unfold atexit; cbn.
    destruct (w_atexit_free (world st')); cbn; [intros [= <- <-]; exact Hpre|].
    unfold logger_setup_context.
    change ((level <? 0) || (level >? 7)) with
      ((level <? LOGGER_EMERGENCY) || (level >? LOGGER_DEBUG)).
    rewrite G; cbn. intros [= <- <-]. lia.
Qed.

Lemma logger_factory_csv_context level file_path st :
  (fst (logger_factory_csv level file_path st) <= 0
   /\ Logger (snd (logger_factory_csv level file_path st)) = Logger st)
  \/ exists path,
       0 <= level <= 7
       /\ file_path = Some path
       /\ fst (logger_factory_csv level file_path st) = 1
       /\ Logger (snd (logger_factory_csv level file_path st)) = csv_context level path.
Proof.
  unfold logger_factory_csv.
  destruct (logger_factory_file_context level file_path st)
    as [[Hc H] | (path & Hr & Hp & Hc & H)];
    destruct (logger_factory_file level file_path st) as [ret_code st1];
    cbn [fst snd] in *.
  - left. destruct (Z.leb_spec ret_code 0); [|lia]. by split.
  - right. exists path. subst ret_code. cbn.
    unfold logger_set_transform, Logger_output_function, Logger_log_level,
      Logger_output_object, Logger_transform_function, Logger_is_active.
    rewrite H. split; [exact Hr|]. split; [exact Hp|]. split; reflexivity.
Qed.

(** ** Invariants of the interface *)

Lemma api_step_keeps_callbacks_set c st :
  callbacks_set st = true -> callbacks_set (api_step c st) = true.
Proof.
  unfold callbacks_set, Logger_output_function, Logger_transform_function.
  intros H. destruct c; cbn [api_step].
  - unfold logger_setup_context.
    destruct (_ || _); [exact H|].
    destruct output, transform; cbn; try exact H. reflexivity.
  - unfold logger_set_output_callback, Logger_output_function,
      Logger_transform_function.
    destruct (output_function (Logger st)) eqn:Eo,
      (transform_function (Logger st)) eqn:Et, new_output;
      cbn in *; rewrite ?Eo, ?Et; cbn; congruence.
  - unfold logger_set_loglevel. destruct (_ || _); exact H.
  - unfold logger_set_transform, Logger_output_function.
    destruct (output_function (Logger st)) eqn:Eo,
      (transform_function (Logger st)) eqn:Et, new_transform;
      cbn in *; rewrite ?Eo, ?Et; cbn; congruence.
  - rewrite logger_toggle_eq. exact H.
  - unfold logger_log_call.
    destruct (logger_log_frame (call_now c) (call_level c) (call_file c) (call_line c)
                (call_message c) (call_args c) st) as [-> _]. exact H.
  - unfold logger_factory_console, logger_setup_context.
    destruct (_ || _); [exact H | reflexivity].
  - destruct (logger_factory_file_context level file_path st)
      as [[_ ->] | (path & _ & _ & _ & ->)]; [exact H | reflexivity].
  - destruct (logger_factory_csv_context level file_path st)
      as [[_ ->] | (path & _ & _ & _ & ->)]; [exact H | reflexivity].
Qed.

(** Once both callbacks are set, no sequence of calls to the interface
    (setup, setters, toggle, log calls, presets; valid or rejected) leaves
    either of them null. *)
Theorem api_keeps_callbacks_set calls st :
  callbacks_set st = true -> callbacks_set (api_run calls st) = true.
Proof.
  revert st. induction calls as [|c calls IH]; intros st H; [exact H|].
  apply IH, api_step_keeps_callbacks_set, H.
Qed.

Lemma api_keeps_callbacks_set_witness :
  callbacks_set (api_run Fixture.session Sample.console_debug) = true.
Proof.
  apply (api_keeps_callbacks_set Fixture.session Sample.console_debug).
  reflexivity.
Defined.

Lemma api_step_keeps_paired c st :
  callbacks_paired st = true /\ 0 <= Logger_log_level st ->
  callbacks_paired (api_step c st) = true /\ 0 <= Logger_log_level (api_step c st).
Proof.
  unfold callbacks_paired, Logger_output_function, Logger_transform_function,
    Logger_log_level.
  intros [H H0]. destruct c; cbn [api_step].
  - unfold logger_setup_context.
    destruct (Z.ltb_spec level 0), (Z.gtb_spec level 7); cbn [orb snd];
      try (split; [exact H | exact H0]).
    destruct output, transform; cbn; try (split; [exact H | exact H0]).
    split; [reflexivity | lia].
  - unfold logger_set_output_callback, Logger_output_function,
      Logger_transform_function.
    destruct (output_function (Logger st)) eqn:Eo,
      (transform_function (Logger st)) eqn:Et, new_output;
      cbn in *; rewrite ?Eo, ?Et; cbn; split; first [exact H0 | congruence].
  - unfold logger_set_loglevel, Logger_log_level.
    destruct (Z.ltb_spec level 0), (Z.eqb_spec (log_level (Logger st)) level);
      cbn; split; try exact H; try exact H0; lia.
  - unfold logger_set_transform, Logger_output_function.
    destruct (output_function (Logger st)) eqn:Eo,
      (transform_function (Logger st)) eqn:Et, new_transform;
      cbn in *; rewrite ?Eo, ?Et; cbn; split; first [exact H0 | congruence].
  - rewrite logger_toggle_eq. split; [exact H | exact H0].
  - unfold logger_log_call.
    destruct (logger_log_frame (call_now c) (call_level c) (call_file c) (call_line c)
                (call_message c) (call_args c) st) as [-> _].
    split; [exact H | exact H0].
  - unfold logger_factory_console, logger_setup_context.
    destruct (Z.ltb_spec level 0), (Z.gtb_spec level 7); cbn;
      try (split; [exact H | exact H0]).
    split; [reflexivity | lia].
  - destruct (logger_factory_file_context level file_path st)
      as [[_ ->] | (path & Hr & _ & _ & ->)];
      [split; [exact H | exact H0] | split; [reflexivity | cbn; lia]].
  - destruct (logger_factory_csv_context level file_path st)
      as [[_ ->] | (path & Hr & _ & _ & ->)];
      [split; [exact H | exact H0] | split; [reflexivity | cbn; lia]].
Qed.

(** In every state the interface can reach from the zero-valued start,
    the two function pointers are null together or set together, and the
    threshold is not negative.  (It can exceed 7.) *)
Theorem api_reachable_invariant calls w :
  callbacks_paired (api_run calls (initial_state w)) = true
  /\ 0 <= Logger_log_level (api_run calls (initial_state w)).
Proof.
  assert (H : forall st, callbacks_paired st = true /\ 0 <= Logger_log_level st ->
            callbacks_paired (api_run calls st) = true
            /\ 0 <= Logger_log_level (api_run calls st)).
  { induction calls as [|c calls IH]; intros st Hst; [exact Hst|].
    apply IH, api_step_keeps_paired, Hst. }
  apply H. split; [reflexivity | cbn; lia].
Qed.

Example session_threshold_out_of_range :
  Logger_log_level (api_run Fixture.session Sample.fresh) = 8
  /\ callbacks_set (api_run Fixture.session Sample.fresh) = true
  /\ logger_is_initialized (api_run Fixture.session Sample.fresh) = false.
Proof. vm_compute. repeat split. Qed.

(** ** The file preset: failures *)

Lemma fclose_not_open f w : f ∉ w_open (fclose f w).
Proof.
  unfold fclose. destruct (decide (f ∈ w_open w)) as [Hin|Hout]; cbn; [|exact Hout].
  intros H. apply elem_of_difference in H as [_ H].
  apply H, elem_of_singleton. reflexivity.
Qed.

Lemma fclose_files f w : w_files (fclose f w) = w_files w.
Proof. unfold fclose. destruct (decide _); reflexivity. Qed.

Lemma fclose_undefined_mono f w :
  w_undefined w = true -> w_undefined (fclose f w) = true.
Proof. unfold fclose. destruct (decide _); cbn; auto. Qed.

Lemma fclose_closed_undefined f w : f ∉ w_open w -> w_undefined (fclose f w) = true.
Proof. unfold fclose. destruct (decide _); [contradiction | reflexivity]. Qed.

(** The shape of every failure of the file preset. *)
Lemma logger_factory_file_failure_shape level file_path st :
  fst (logger_factory_file level file_path st) <= 0 ->
  Logger (snd (logger_factory_file level file_path st)) = Logger st
  /\ ((file_path = None \/ level < 0 \/ 7 < level)
      /\ logger_factory_file level file_path st = (-1, st)
      \/ exists path,
           file_path = Some path /\ 0 <= level <= 7
           /\ (fst (logger_factory_file level file_path st) = -2
               /\ path ∈ w_unwritable (world st)
               /\ logger_factory_file_file (snd (logger_factory_file level file_path st))
                  = None
               /\ (forall f, logger_factory_file_file st = Some f ->
                     f ∉ w_open (world (snd (logger_factory_file level file_path st))))
               \/ fst (logger_factory_file level file_path st) = -3
                  /\ (path ∉ w_unwritable (world st))
                  /\ logger_factory_file_file (snd (logger_factory_file level file_path st))
                     = Some path
                  /\ path ∉ w_open (world (snd (logger_factory_file level file_path st))))).
Proof.
  unfold logger_factory_file.
  destruct file_path as [path|]; [|intros _; split; [reflexivity | left; auto]].
  cbn [is_null orb default from_option id]. unfold LOGGER_EMERGENCY, LOGGER_DEBUG.
  destruct (Z.ltb_spec level 0); cbn [orb];
    [intros _; split; [reflexivity | left; auto]|].
  destruct (Z.gtb_spec level 7);
    [intros _; split; [reflexivity | left; auto]|].
  assert (Hpre : Logger (match logger_factory_file_file st with
                         | Some f => set_world (fclose f (world st)) st
                         | None => st
                         end) = Logger st
                 /\ w_unwritable (world (match logger_factory_file_file st with
                                         | Some f => set_world (fclose f (world st)) st
                                         | None => st
                                         end)) = w_unwritable (world st)
                 /\ forall f, logger_factory_file_file st = Some f ->
                      f ∉ w_open (world (match logger_factory_file_file st with
                                         | Some f => set_world (fclose f (world st)) st
                                         | None => st
                                         end))).
  { destruct (logger_factory_file_file st) as [f|]; cbn.
    - split; [reflexivity|]. split.
      + unfold fclose. destruct (decide _); reflexivity.
      + intros f' [= <-]. apply fclose_not_open.
    - repeat split. discriminate. }
  revert Hpre. generalize (match logger_factory_file_file st with
                           | Some f => set_world (fclose f (world st)) st
                           | None => st
                           end).
  intros st' (HL & Hu & Hclosed). unfold fopen_w. rewrite Hu.
  destruct (decide (path ∈ w_unwritable (world st))) as [Hin|Hout]; cbn.
  - intros _. split; [exact HL|]. right. exists path.
    split; [reflexivity|]. split; [lia|]. left. repeat split; auto.
  - unfold atexit; cbn. destruct (w_atexit_free (world st')); cbn.
    + intros _. split; [exact HL|]. right. exists path.
      split; [reflexivity|]. split; [lia|]. right.
      split; [reflexivity|]. split; [exact Hout|]. split; [reflexivity|].
      apply fclose_not_open.
    + unfold logger_setup_context.
      destruct (Z.ltb_spec level 0), (Z.gtb_spec level 7); cbn; lia.
Qed.

(** A failed file preset never touches the context.  With a null path or
    a level outside [0,7] it returns -1 and changes nothing at all; when
    the file cannot be opened it returns -2, the static handle is null and
    the stream it named before is closed; when the exit handler cannot be
    registered it returns -3 and the static handle still names the stream
    that was just closed. *)
Theorem file_preset_failure level file_path st :
  fst (logger_factory_file level file_path st) <= 0 ->
  Logger (snd (logger_factory_file level file_path st)) = Logger st
  /\ ((file_path = None \/ level < 0 \/ 7 < level)
      /\ logger_factory_file level file_path st = (-1, st)
      \/ exists path,
           file_path = Some path /\ 0 <= level <= 7
           /\ (fst (logger_factory_file level file_path st) = -2
               /\ path ∈ w_unwritable (world st)
               /\ logger_factory_file_file (snd (logger_factory_file level file_path st))
                  = None
               /\ (forall f, logger_factory_file_file st = Some f ->
                     f ∉ w_open (world (snd (logger_factory_file level file_path st))))
               \/ fst (logger_factory_file level file_path st) = -3
                  /\ (path ∉ w_unwritable (world st))
                  /\ logger_factory_file_file (snd (logger_factory_file level file_path st))
                     = Some path
                  /\ path ∉ w_open (world (snd (logger_factory_file level file_path st))))).
Proof. apply logger_factory_file_failure_shape. Qed.

Lemma file_preset_failure_witness :
  Logger (snd (logger_factory_file LOGGER_INFO (Some "locked.txt")
                 Fixture.file_debug_locked))
  = Logger Fixture.file_debug_locked.
Proof.
  apply (file_preset_failure LOGGER_INFO (Some "locked.txt") Fixture.file_debug_locked).
  vm_compute. congruence.
Defined.

(** The context after a successful file preset names the stream of that
    preset.  When a later file preset fails to open its file (-2), the
    earlier stream has been closed but the context still names it and
    still has its sink: whatever the console sink is then given for that
    stream, the write is undefined. *)
Theorem file_preset_reopen_failure_dangles level file_path st f :
  logger_factory_file_file st = Some f ->
  Logger_output_object st = FileStream f ->
  fst (logger_factory_file level file_path st) = -2 ->
  Logger_output_object (snd (logger_factory_file level file_path st)) = FileStream f
  /\ Logger_output_function (snd (logger_factory_file level file_path st))
     = Logger_output_function st
  /\ (f ∉ w_open (world (snd (logger_factory_file level file_path st))))
  /\ forall message,
       w_undefined
         (snd (logger_factory_console_output (FileStream f) message
                 (world (snd (logger_factory_file level file_path st))))) = true.
Proof.
  intros Hf Ho Hc.
  destruct (logger_factory_file_failure_shape level file_path st) as [HL Hs]; [lia|].
  assert (Hclosed : f ∉ w_open (world (snd (logger_factory_file level file_path st)))).
  { destruct Hs as [[_ E] | (path & _ & _ & [(_ & _ & _ & H) | (E & _)])].
    - rewrite E in Hc. discriminate Hc.
    - apply H, Hf.
    - rewrite E in Hc. discriminate Hc. }
  unfold Logger_output_object, Logger_output_function in *. rewrite HL.
  split; [exact Ho|]. split; [reflexivity|]. split; [exact Hclosed|].
  intros message. unfold logger_factory_console_output, fprintf; cbn.
  destruct message as [m|]; [|reflexivity].
  destruct (format m []); [|reflexivity].
  destruct (decide _); [contradiction | reflexivity].
Qed.

Lemma file_preset_reopen_failure_dangles_witness :
  Logger_output_object (snd (logger_factory_file LOGGER_INFO (Some "locked.txt")
                               Fixture.file_debug_locked))
  = FileStream "out.txt"
  /\ "out.txt" ∉ w_open (world (snd (logger_factory_file LOGGER_INFO (Some "locked.txt")
                                       Fixture.file_debug_locked))).
Proof.
  destruct (file_preset_reopen_failure_dangles LOGGER_INFO (Some "locked.txt")
              Fixture.file_debug_locked "out.txt") as (H1 & _ & H2 & _).
  - reflexivity.
  - reflexivity.
  - reflexivity.
  - split; [exact H1 | exact H2].
Defined.

(** Once the static handle names a stream that is not open, or the
    execution is already undefined, a file preset with valid arguments is
    undefined: it starts by closing the stream the handle names. *)
Lemma logger_factory_file_on_stale_handle level path st :
  0 <= level <= 7 ->
  (w_undefined (world st) = true
   \/ exists f, logger_factory_file_file st = Some f /\ f ∉ w_open (world st)) ->
  w_undefined (world (snd (logger_factory_file level (Some path) st))) = true.
Proof.
  intros Hr Hst. unfold logger_factory_file.
  cbn [is_null orb default from_option id]. unfold LOGGER_EMERGENCY, LOGGER_DEBUG.
  destruct (Z.ltb_spec level 0); [lia|]. destruct (Z.gtb_spec level 7); [lia|].
  cbn [orb].
  assert (Hpre : w_undefined (world (match logger_factory_file_file st with
                                     | Some f => set_world (fclose f (world st)) st
                                     | None => st
                                     end)) = true).
  { destruct Hst as [Hu | (f & Hf & Hc)].
    - destruct (logger_factory_file_file st); cbn; [|exact Hu].
      apply fclose_undefined_mono, Hu.
    - rewrite Hf; cbn. apply fclose_closed_undefined, Hc. }
  revert Hpre. generalize (match logger_factory_file_file st with
                           | Some f => set_world (fclose f (world st)) st
                           | None => st
                           end).
  intros st' Hu. unfold fopen_w.
  destruct (decide (path ∈ w_unwritable (world st'))); cbn; [exact Hu|].
  unfold atexit; cbn. destruct (w_atexit_free (world st')); cbn.
  - apply fclose_undefined_mono. cbn. exact Hu.
  - unfold logger_setup_context.
    destruct (Z.ltb_spec level 0); [lia|]. destruct (Z.gtb_spec level 7); [lia|].
    cbn. exact Hu.
Qed.

(** After a file preset that failed with -3 the static handle names a
    closed stream, so the next file preset with a path and a level in
    [0,7] closes that stream a second time: undefined behaviour. *)
Theorem file_preset_double_close level file_path st level' path' :
  fst (logger_factory_file level file_path st) = -3 ->
  0 <= level' <= 7 ->
  w_undefined
    (world (snd (logger_factory_file level' (Some path')
                   (snd (logger_factory_file level file_path st))))) = true.
Proof.
  intros Hc Hr.
  apply logger_factory_file_on_stale_handle; [exact Hr|]. right.
  destruct (logger_factory_file_failure_shape level file_path st) as [_ Hs]; [lia|].
  destruct Hs as [[_ E] | (path & _ & _ & [(E & _) | (_ & _ & Hf & Hclosed)])].
  - rewrite E in Hc. discriminate Hc.
  - rewrite E in Hc. discriminate Hc.
  - exists path. split; assumption.
Qed.

Lemma file_preset_double_close_witness :
  w_undefined
    (world (snd (logger_factory_file LOGGER_INFO (Some "again.txt")
                   (snd (logger_factory_file LOGGER_DEBUG (Some "out.txt")
                           (initial_state Fixture.full_world)))))) = true.
Proof.
  apply (file_preset_double_close LOGGER_DEBUG (Some "out.txt")
           (initial_state Fixture.full_world) LOGGER_INFO "again.txt").
  - reflexivity.
  - unfold LOGGER_INFO; lia.
Defined.

(** ** The file preset: success *)

(** A successful file preset returns 1, leaves an initialized, active
    context on the console callbacks and the new stream, starts the file
    empty (whatever it held), has the stream open, records it in the
    static handle and takes one more exit-handler slot from the runtime. *)
Theorem file_preset_success level file_path st :
  0 < fst (logger_factory_file level file_path st) ->
  exists path,
    file_path = Some path
    /\ fst (logger_factory_file level file_path st) = 1
    /\ Logger (snd (logger_factory_file level file_path st))
       = mkContext level (FileStream path) (Some logger_factory_console_output)
                   (Some logger_factory_console_transform) true
    /\ logger_is_initialized (snd (logger_factory_file level file_path st)) = true
    /\ logger_factory_file_file (snd (logger_factory_file level file_path st)) = Some path
    /\ file_content path (snd (logger_factory_file level file_path st)) = []
    /\ path ∈ w_open (world (snd (logger_factory_file level file_path st)))
    /\ S (w_atexit_free (world (snd (logger_factory_file level file_path st))))
       = w_atexit_free (world st).
Proof.
  intros Hc.
  destruct (logger_factory_file level file_path st) as [code st1] eqn:E.
  cbn [fst snd] in *.
  destruct (logger_factory_file_success _ _ _ _ _ E Hc)
    as (path & -> & -> & HL & Hff & Hfiles & Hopen).
  exists path. split; [reflexivity|]. split; [reflexivity|]. split; [exact HL|].
  assert (Hr : 0 <= level <= 7 /\ S (w_atexit_free (world st1)) = w_atexit_free (world st)).
  { revert E. unfold logger_factory_file.
    cbn [is_null orb default from_option id]. unfold LOGGER_EMERGENCY, LOGGER_DEBUG.
    destruct (Z.ltb_spec level 0); cbn [orb]; [intros [= ]|].
    destruct (Z.gtb_spec level 7); [intros [= ]|].
    assert (Hpre : w_atexit_free (world (match logger_factory_file_file st with
                                         | Some f => set_world (fclose f (world st)) st
                                         | None => st
                                         end)) = w_atexit_free (world st)).
    { destruct (logger_factory_file_file st); [|reflexivity].
      cbn. unfold fclose. destruct (decide _); reflexivity. }
    revert Hpre. generalize (match logger_factory_file_file st with
                             | Some f => set_world (fclose f (world st)) st
                             | None => st
                             end).
    intros st' Hpre. unfold fopen_w.
    destruct (decide (path ∈ w_unwritable (world st'))); cbn; [intros [= ]|].
    unfold atexit; cbn. destruct (w_atexit_free (world st')) eqn:Ea; cbn; [intros [= ]|].
    unfold logger_setup_context.
    destruct (Z.ltb_spec level 0); [lia|]. destruct (Z.gtb_spec level 7); [lia|].
    cbn. intros [= <-]. cbn. split; [lia | congruence]. }
  destruct Hr as [Hr Hslots].
  split.
  { unfold logger_is_initialized, Logger_transform_function, Logger_output_function,
      Logger_log_level, LOGGER_EMERGENCY, LOGGER_DEBUG. rewrite HL; cbn.
    destruct (Z.geb_spec level 0), (Z.leb_spec level 7); try lia. reflexivity. }
  split; [exact Hff|]. split; [unfold file_content; by rewrite Hfiles|].
  split; [exact Hopen | exact Hslots].
Qed.

Lemma file_preset_success_witness :
  exists path,
    Some "out.txt" = Some path
    /\ fst (logger_factory_file LOGGER_DEBUG (Some "out.txt") Sample.csv_debug) = 1
    /\ file_content path (snd (logger_factory_file LOGGER_DEBUG (Some "out.txt")
                                 Sample.csv_debug)) = [].
Proof.
  destruct (file_preset_success LOGGER_DEBUG (Some "out.txt") Sample.csv_debug)
    as (path & H1 & H2 & _ & _ & _ & H3 & _).
  - vm_compute. reflexivity.
  - exists path. split; [exact H1|]. split; [exact H2 | exact H3].
Defined.

(** ** The exit handler *)

(** With an open stream in the static handle, the exit handler closes
    that stream and nothing else: file contents, the context and the
    handle itself stay.  Because the handle is not reset, running the
    handler a second time closes the same stream again, which is
    undefined.  With a null handle the handler does nothing. *)
Theorem exit_handler_closes_once st f :
  logger_factory_file_file st = Some f ->
  f ∈ w_open (world st) ->
  w_open (world (logger_factory_file_exit st)) = w_open (world st) ∖ {[f]}
  /\ w_files (world (logger_factory_file_exit st)) = w_files (world st)
  /\ w_undefined (world (logger_factory_file_exit st)) = w_undefined (world st)
  /\ Logger (logger_factory_file_exit st) = Logger st
  /\ logger_factory_file_file (logger_factory_file_exit st) = Some f
  /\ w_undefined (world (logger_factory_file_exit (logger_factory_file_exit st))) = true.
Proof.
  intros Hf Hopen.
  assert (E : logger_factory_file_exit st
              = set_world (set_open (w_open (world st) ∖ {[f]}) (world st)) st).
  { unfold logger_factory_file_exit, fclose. rewrite Hf.
    destruct (decide _); [reflexivity | contradiction]. }
  rewrite E. do 4 (split; [reflexivity|]). split; [exact Hf|].
  unfold logger_factory_file_exit. cbn. rewrite Hf. cbn.
  apply fclose_closed_undefined. cbn.
  intros H. apply elem_of_difference in H as [_ H].
  apply H, elem_of_singleton. reflexivity.
Qed.

Lemma exit_handler_closes_once_witness :
  w_files (world (logger_factory_file_exit Sample.csv_debug))
    = w_files (world Sample.csv_debug)
  /\ w_undefined (world (logger_factory_file_exit Sample.csv_debug)) = false
  /\ w_undefined (world (logger_factory_file_exit
                           (logger_factory_file_exit Sample.csv_debug))) = true.
Proof.
  destruct (exit_handler_closes_once Sample.csv_debug "out.csv")
    as (_ & H1 & H2 & _ & _ & H3).
  - reflexivity.
  - vm_compute. reflexivity.
  - split; [exact H1|]. split; [rewrite H2; reflexivity | exact H3].
Defined.

(** ** What the presets write *)

Lemma string_length_app (a b : string) :
  String.length (a ++ b) = (String.length a + String.length b)%nat.
Proof. induction a as [|c a IH]; simpl; [reflexivity | by rewrite IH]. Qed.

Lemma format_literal_char c r args :
  Ascii.eqb c "%" = false -> format (String c r) args = String c <$> format r args.
Proof.
  intros H. destruct c as [[] [] [] [] [] [] [] []]; try reflexivity.
  discriminate H.
Qed.

(** A text without a percent sign is printed as it is. *)
Lemma format_percent_free s args : percent_free s = true -> format s args = Some s.
Proof.
  induction s as [|c r IH]; [reflexivity|].
  cbn [percent_free]. intros H. apply andb_prop in H as [Hc Hr].
  rewrite format_literal_char by (by destruct (Ascii.eqb c "%")).
  by rewrite (IH Hr).
Qed.

Lemma format_console_tail name file filenumber message :
  format (" %-10s %s:%d - %s" ++ LF) [Str name; Str file; Int filenumber; Str message]
  = Some (" " ++ pad_right 10 name ++ " " ++ file ++ ":" ++ decimal filenumber
          ++ " - " ++ message ++ LF).
Proof. reflexivity. Qed.

Lemma buffer_fits_int : Z.of_nat LOGGER_MESSAGE_BUFFER <= INT_MAX.
Proof. vm_compute. discriminate. Qed.

Lemma snprintf_short size fmt args text :
  format fmt args = Some text ->
  (String.length text < size)%nat ->
  (size <= LOGGER_MESSAGE_BUFFER)%nat ->
  snprintf size fmt args = Some (text, Z.of_nat (String.length text)).
Proof.
  intros Hf Hl Hs. rewrite (snprintf_fits size fmt args text Hf).
  - rewrite str_take_all by lia. reflexivity.
  - pose proof buffer_fits_int. lia.
Qed.

(** The console transformer on a line that fits its buffer. *)
Lemma console_transform_line timestamp level file filenumber message w :
  0 <= level <= 7 ->
  (1 <= String.length (w_ctime w timestamp))%nat ->
  (String.length (console_line (w_ctime w timestamp) level file filenumber message)
   < LOGGER_MESSAGE_BUFFER)%nat ->
  logger_factory_console_transform timestamp level (Some file) filenumber (Some message) w
  = (Some (console_line (w_ctime w timestamp) level file filenumber message), w).
Proof.
  intros Hr Ht Hl. unfold logger_factory_console_transform, LOGGER_EMERGENCY, LOGGER_DEBUG.
  destruct (Z.ltb_spec level 0); [lia|]. destruct (Z.gtb_spec level 7); [lia|].
  cbn [orb is_null default from_option id].
  unfold console_line in *.
  set (tail := " " ++ pad_right 10 (nth (Z.to_nat level) log_level_mapping_upper "")
               ++ " " ++ file ++ ":" ++ decimal filenumber ++ " - " ++ message ++ LF) in *.
  assert (Htail : (1 <= String.length tail)%nat)
    by (unfold tail; rewrite string_length_app; cbn [String.length]; lia).
  rewrite string_length_app in Hl.
  unfold strftime.
  destruct (Nat.ltb_spec (String.length (w_ctime w timestamp)) LOGGER_MESSAGE_BUFFER);
    [|lia].
  destruct (Z.ltb_spec (Z.of_nat (String.length (w_ctime w timestamp))) 1); [lia|].
  rewrite (snprintf_short LOGGER_MESSAGE_BUFFER _ _ tail (format_console_tail _ _ _ _))
    by lia.
  destruct (Z.ltb_spec (Z.of_nat (String.length tail)) 1); [lia|].
  cbv zeta. rewrite string_length_app.
  destruct (Nat.leb_spec LOGGER_MESSAGE_BUFFER
              (String.length (w_ctime w timestamp) + String.length tail)); [lia|].
  reflexivity.
Qed.

Lemma console_dispatch now level file linenumber message args st T text :
  Logger st = console_context T ->
  0 <= level <= 7 ->
  level <= T ->
  format message args = Some text ->
  (1 <= String.length text)%nat ->
  (1 <= String.length (w_ctime (world st) now))%nat ->
  (String.length (console_line (w_ctime (world st) now) level file linenumber text)
   < LOGGER_MESSAGE_BUFFER)%nat ->
  percent_free (console_line (w_ctime (world st) now) level file linenumber text) = true ->
  logger_log now level (Some file) linenumber (Some message) args st
  = mkState (Logger st) (logger_factory_file_file st)
      (set_stdout
         (w_stdout (world st)
          ++ [console_line (w_ctime (world st) now) level file linenumber text])%list
         (world st))
      (trace st
       ++ [EvTransform now level (Some file) linenumber text;
           EvOutput StdoutStream
             (Some (console_line (w_ctime (world st) now) level file linenumber text))])%list.
Proof.
  intros HL Hr Hl Hf Hne Ht Hlen Hpf.
  assert (Htext : (String.length text < LOGGER_MESSAGE_BUFFER)%nat).
  { revert Hlen. unfold console_line. rewrite !string_length_app. lia. }
  rewrite logger_log_passed;
    [|exact Hr
     |unfold Logger_log_level; rewrite HL; exact Hl
     |unfold Logger_is_active; rewrite HL; reflexivity].
  unfold vsnprintf. rewrite (snprintf_short _ _ _ _ Hf Htext) by lia.
  destruct (Z.ltb_spec (Z.of_nat (String.length text)) 1); [lia|].
  unfold Logger_transform_function, Logger_output_function, Logger_output_object.
  rewrite HL. cbn [console_context transform_function output_function output_object].
  rewrite console_transform_line by assumption.
  unfold logger_factory_console_output, fprintf.
  rewrite (format_percent_free _ [] Hpf).
  change (1 <? 1) with false. cbv iota beta.
  unfold record, set_world.
  cbn [Logger logger_factory_file_file world trace].
  rewrite HL, <- app_assoc. reflexivity.
Qed.

(** Console preset: a log call that passes the filter, whose text is not
    empty, and whose finished line fits the buffer and holds no percent
    sign, appends exactly that line (time, level name padded to ten, file,
    line number, text, line feed) to standard output as one chunk and
    changes nothing else in the environment. *)
Theorem console_preset_writes_line now level file linenumber message args st T text :
  Logger st = console_context T ->
  0 <= level <= 7 ->
  level <= T ->
  format message args = Some text ->
  (1 <= String.length text)%nat ->
  (1 <= String.length (w_ctime (world st) now))%nat ->
  (String.length (console_line (w_ctime (world st) now) level file linenumber text)
   < LOGGER_MESSAGE_BUFFER)%nat ->
  percent_free (console_line (w_ctime (world st) now) level file linenumber text) = true ->
  world (logger_log now level (Some file) linenumber (Some message) args st)
  = set_stdout
      (w_stdout (world st)
       ++ [(w_ctime (world st) now ++ " "
            ++ pad_right 10 (nth (Z.to_nat level) log_level_mapping_upper "")
            ++ " " ++ file ++ ":" ++ decimal linenumber ++ " - " ++ text ++ LF)%string])%list
      (world st).
Proof.
  intros HL Hr Hl Hf Hne Ht Hlen Hpf.
  rewrite (console_dispatch now level file linenumber message args st T text)
    by assumption.
  reflexivity.
Qed.

Lemma console_preset_writes_line_witness :
  world (logger_log 1633035745 LOGGER_WARNING (Some "main.c") 10 (Some "disk %s")
                    [Str "full"] Sample.console_debug)
  = set_stdout ["Thu Sep 30 23:02:25 2021 WARNING    main.c:10 - disk full" ++ LF]
               (world Sample.console_debug).
Proof.
  apply (console_preset_writes_line 1633035745 LOGGER_WARNING "main.c" 10 "disk %s"
           [Str "full"] Sample.console_debug LOGGER_DEBUG "disk full").
  - reflexivity.
  - unfold LOGGER_WARNING; lia.
  - unfold LOGGER_WARNING, LOGGER_DEBUG; lia.
  - reflexivity.
  - vm_compute; lia.
  - vm_compute; lia.
  - vm_compute; lia.
  - reflexivity.
Defined.

(** The tabular transformer on a record that fits its buffer. *)
Lemma csv_transform_record timestamp level file filenumber message w :
  0 <= level <= 7 ->
  (String.length (csv_record timestamp level file filenumber message)
   < LOGGER_MESSAGE_BUFFER)%nat ->
  logger_factory_csv_transform timestamp level (Some file) filenumber (Some message) w
  = (Some (csv_record timestamp level file filenumber message), w).
Proof.
  intros Hr Hl. unfold logger_factory_csv_transform, LOGGER_EMERGENCY, LOGGER_DEBUG.
  destruct (Z.ltb_spec level 0); [lia|]. destruct (Z.gtb_spec level 7); [lia|].
  cbn [orb is_null default from_option id].
  rewrite (snprintf_short LOGGER_MESSAGE_BUFFER _ _ _ (format_csv_record _ _ _ _ _))
    by (exact Hl || lia).
  fold (csv_record timestamp level file filenumber message).
  assert (Hne : (1 <= String.length (csv_record timestamp level file filenumber message))%nat).
  { unfold csv_record. rewrite !string_length_app. cbn [String.length]. lia. }
  destruct (Z.ltb_spec
              (Z.of_nat (String.length (csv_record timestamp level file filenumber message)))
              1); [lia | reflexivity].
Qed.

(** Tabular preset: a log call that passes the filter, whose text is not
    empty, and whose finished record fits the buffer and holds no percent
    sign, appends exactly that record (timestamp, lower-case level name,
    file, line number, text, line feed) to the destination as one chunk
    and changes nothing else in the environment. *)
Theorem csv_preset_writes_record now level file linenumber message args st T path text :
  Logger st = csv_context T path ->
  path ∈ w_open (world st) ->
  0 <= level <= 7 ->
  level <= T ->
  format message args = Some text ->
  (1 <= String.length text)%nat ->
  (String.length (csv_record now level file linenumber text) < LOGGER_MESSAGE_BUFFER)%nat ->
  percent_free (csv_record now level file linenumber text) = true ->
  world (logger_log now level (Some file) linenumber (Some message) args st)
  = set_files
      (<[path := (file_content path st
                  ++ [(decimal now ++ ","
                       ++ nth (Z.to_nat level) log_level_mapping_lower "" ++ ","
                       ++ file ++ "," ++ decimal linenumber ++ "," ++ text ++ LF)%string])%list]>
         (w_files (world st)))
      (world st)
  /\ file_content path (logger_log now level (Some file) linenumber (Some message) args st)
     = (file_content path st ++ [csv_record now level file linenumber text])%list.
Proof.
  intros HL Hopen Hr Hl Hf Hne Hlen Hpf.
  assert (Htext : (String.length text < LOGGER_MESSAGE_BUFFER)%nat).
  { revert Hlen. unfold csv_record. rewrite !string_length_app. lia. }
  assert (E : world (logger_log now level (Some file) linenumber (Some message) args st)
              = set_files
                  (<[path := (file_content path st
                              ++ [csv_record now level file linenumber text])%list]>
                     (w_files (world st)))
                  (world st)).
  { rewrite logger_log_passed;
      [|exact Hr
       |unfold Logger_log_level; rewrite HL; exact Hl
       |unfold Logger_is_active; rewrite HL; reflexivity].
    unfold vsnprintf. rewrite (snprintf_short _ _ _ _ Hf Htext) by lia.
    destruct (Z.ltb_spec (Z.of_nat (String.length text)) 1); [lia|].
    unfold Logger_transform_function, Logger_output_function, Logger_output_object.
    rewrite HL. cbn [csv_context transform_function output_function output_object].
    rewrite csv_transform_record by assumption.
    unfold logger_factory_console_output, fprintf.
    rewrite (format_percent_free _ [] Hpf).
    destruct (decide (path ∈ w_open (world st))); [|contradiction].
    change (1 <? 1) with false. reflexivity. }
  split; [exact E|].
  unfold file_content at 1. rewrite E. cbn [w_files set_files].
  by rewrite lookup_insert_eq.
Qed.

Lemma csv_preset_writes_record_witness :
  file_content "out.csv"
    (logger_log 1633035745 LOGGER_INFO (Some "./src/logger.c") 486
                (Some "this is the first test") [] Sample.csv_debug)
  = [csv_header; "1633035745,info,./src/logger.c,486,this is the first test" ++ LF].
Proof.
  destruct (csv_preset_writes_record 1633035745 LOGGER_INFO "./src/logger.c" 486
              "this is the first test" [] Sample.csv_debug LOGGER_DEBUG "out.csv"
              "this is the first test") as [_ H].
  - reflexivity.
  - vm_compute. reflexivity.
  - unfold LOGGER_INFO; lia.
  - unfold LOGGER_INFO, LOGGER_DEBUG; lia.
  - reflexivity.
  - vm_compute; lia.
  - vm_compute; lia.
  - reflexivity.
  - rewrite H. reflexivity.
Defined.

(** The tabular preset returns the status of the file preset underneath.
    When that is a failure the context is as it was; when it is a success
    (status 1) the context is the file preset's with the tabular
    transformer in place of the console one. *)
Theorem csv_preset_outcome level file_path st :
  fst (logger_factory_csv level file_path st) = fst (logger_factory_file level file_path st)
  /\ (fst (logger_factory_csv level file_path st) <= 0 ->
      Logger (snd (logger_factory_csv level file_path st)) = Logger st)
  /\ (0 < fst (logger_factory_csv level file_path st) ->
      exists path,
        file_path = Some path
        /\ fst (logger_factory_csv level file_path st) = 1
        /\ Logger (snd (logger_factory_csv level file_path st))
           = mkContext level (FileStream path) (Some logger_factory_console_output)
                       (Some logger_factory_csv_transform) true
        /\ logger_factory_file_file (snd (logger_factory_csv level file_path st))
           = Some path).
Proof.
  split; [|split].
  - unfold logger_factory_csv.
    destruct (logger_factory_file level file_path st) as [ret_code st1].
    destruct (ret_code <=? 0); reflexivity.
  - intros Hc.
    destruct (logger_factory_csv_context level file_path st)
      as [[_ H] | (path & _ & _ & E & _)]; [exact H | lia].
  - intros Hc.
    destruct (logger_factory_csv_context level file_path st)
      as [[E _] | (path & _ & Hp & E & H)]; [lia|].
    exists path. split; [exact Hp|]. split; [exact E|]. split; [exact H|].
    revert Hc. unfold logger_factory_csv.
    destruct (logger_factory_file level file_path st) as [ret_code st1] eqn:Ef.
    destruct (Z.leb_spec ret_code 0); cbn [fst snd]; [lia|]. intros _.
    destruct (logger_factory_file_success _ _ _ _ _ Ef) as (p & Hp' & _ & HL & Hff & _);
      [lia|].
    rewrite Hp in Hp'. injection Hp' as <-.
    unfold logger_set_transform, Logger_output_function. rewrite HL. cbn. exact Hff.
Qed.

Lemma csv_preset_outcome_witness :
  Logger (snd (logger_factory_csv LOGGER_DEBUG (Some "locked.txt")
                 Fixture.file_debug_locked))
  = Logger Fixture.file_debug_locked.
Proof.
  destruct (csv_preset_outcome LOGGER_DEBUG (Some "locked.txt") Fixture.file_debug_locked)
    as (_ & H & _).
  apply H. vm_compute. congruence.
Defined.

(** ** The demo program *)

(** Whatever state it starts in, the demo program returns 0 and adds to
    standard output exactly two lines, the EMERGENCY one and the WARNING
    one, in that order: the DEBUG call is below the WARNING threshold and
    the ERROR call comes after the logger was switched off.  It writes
    nothing to the diagnostic channel and leaves the logger inactive.
    (The two lines are assumed to fit the buffer and to hold no percent
    sign, and the clock to render non-empty.) *)
Theorem test_main_prints_two_lines file t1 t2 t3 t4 st :
  (1 <= String.length (w_ctime (world st) t2))%nat ->
  (String.length (console_line (w_ctime (world st) t2) LOGGER_EMERGENCY file 9
                               "A test emergency message") < LOGGER_MESSAGE_BUFFER)%nat ->
  percent_free (console_line (w_ctime (world st) t2) LOGGER_EMERGENCY file 9
                             "A test emergency message") = true ->
  (1 <= String.length (w_ctime (world st) t3))%nat ->
  (String.length (console_line (w_ctime (world st) t3) LOGGER_WARNING file 10
                               "A visible message") < LOGGER_MESSAGE_BUFFER)%nat ->
  percent_free (console_line (w_ctime (world st) t3) LOGGER_WARNING file 10
                             "A visible message") = true ->
  fst (test_main file t1 t2 t3 t4 st) = 0
  /\ w_stdout (world (snd (test_main file t1 t2 t3 t4 st)))
     = (w_stdout (world st)
        ++ [console_line (w_ctime (world st) t2) LOGGER_EMERGENCY file 9
                         "A test emergency message";
            console_line (w_ctime (world st) t3) LOGGER_WARNING file 10
                         "A visible message"])%list
  /\ w_stderr (world (snd (test_main file t1 t2 t3 t4 st))) = w_stderr (world st)
  /\ w_undefined (world (snd (test_main file t1 t2 t3 t4 st))) = w_undefined (world st)
  /\ logger_get_status (snd (test_main file t1 t2 t3 t4 st)) = false
  /\ Logger_log_level (snd (test_main file t1 t2 t3 t4 st)) = LOGGER_WARNING.
Proof.
  intros Ht2 Hl2 Hp2 Ht3 Hl3 Hp3.
  unfold test_main.
  change (logger_factory_console LOGGER_WARNING st)
    with (1, set_Logger (console_context LOGGER_WARNING) st).
  cbv beta iota.
  change (logger_is_initialized (set_Logger (console_context LOGGER_WARNING) st))
    with true.
  change ((1 <=? 0) || Bool.eqb true false) with false. cbv beta iota zeta.
  unfold logger_debug, logger_emergency, logger_warning, logger_error.
  set (st1 := set_Logger (console_context LOGGER_WARNING) st).
  rewrite (logger_log_filtered t1 LOGGER_DEBUG file 8 "Initialized Logger" [] st1);
    [|unfold LOGGER_DEBUG; lia
     |left; unfold st1, Logger_log_level, LOGGER_DEBUG, LOGGER_WARNING; cbn; lia].
  rewrite (console_dispatch t2 LOGGER_EMERGENCY file 9 "A test emergency message" []
             st1 LOGGER_WARNING "A test emergency message");
    [|reflexivity | unfold LOGGER_EMERGENCY; lia
     |unfold LOGGER_EMERGENCY, LOGGER_WARNING; lia | reflexivity | cbn; lia
     |exact Ht2 | exact Hl2 | exact Hp2].
  match goal with
  | |- context [logger_log t3 _ _ _ _ _ ?s] => set (st3 := s)
  end.
  rewrite (console_dispatch t3 LOGGER_WARNING file 10 "A visible message" []
             st3 LOGGER_WARNING "A visible message");
    [|reflexivity | unfold LOGGER_WARNING; lia
     |unfold LOGGER_WARNING; lia | reflexivity | cbn; lia
     |exact Ht3 | exact Hl3 | exact Hp3].
  match goal with
  | |- context [logger_toggle false ?s] => set (st4 := s)
  end.
  rewrite (logger_log_filtered t4 LOGGER_ERROR file 12 "This should not be visible" []
             (logger_toggle false st4));
    [|unfold LOGGER_ERROR; lia | right; rewrite logger_toggle_eq; reflexivity].
  rewrite logger_toggle_eq.
  split; [reflexivity|]. split.
  { cbn [snd world set_Logger w_stdout set_stdout st4 st3 st1].
    rewrite <- app_assoc. reflexivity. }
  repeat split.
Qed.

Lemma test_main_prints_two_lines_witness :
  fst (test_main "logger_test.c" 1633035745 1633035745 1633035746 1633035746
                 Sample.fresh) = 0
  /\ w_stdout (world (snd (test_main "logger_test.c" 1633035745 1633035745 1633035746
                                     1633035746 Sample.fresh)))
     = ["Thu Sep 30 23:02:25 2021 EMERGENCY  logger_test.c:9 - A test emergency message"
          ++ LF;
        "Thu Sep 30 23:02:25 2021 WARNING    logger_test.c:10 - A visible message" ++ LF].
Proof.
  destruct (test_main_prints_two_lines "logger_test.c" 1633035745 1633035745 1633035746
              1633035746 Sample.fresh) as (H1 & H2 & _).
  - vm_compute; lia.
  - vm_compute; lia.
  - reflexivity.
  - vm_compute; lia.
  - vm_compute; lia.
  - reflexivity.
  - split; [exact H1|]. rewrite H2. reflexivity.
Defined.

(** ** The console transformer's buffer *)

(** The console transformer writes its formatted part at
    [tmp_buffer + offset] under the bound of the whole buffer.  With valid
    arguments and a clock text that fits, a finished line of
    [LOGGER_MESSAGE_BUFFER] characters or more therefore runs past the end
    of [tmp_buffer]: undefined behaviour.  (A shorter line is returned in
    full, see [console_transform_line].) *)
Theorem console_transform_overruns timestamp level file filenumber message w :
  0 <= level <= 7 ->
  (1 <= String.length (w_ctime w timestamp) < LOGGER_MESSAGE_BUFFER)%nat ->
  (LOGGER_MESSAGE_BUFFER
   <= String.length (console_line (w_ctime w timestamp) level file filenumber message))%nat ->
  Z.of_nat (String.length (console_line (w_ctime w timestamp) level file filenumber message))
    <= INT_MAX ->
  w_undefined
    (snd (logger_factory_console_transform timestamp level (Some file) filenumber
            (Some message) w)) = true.
Proof.
  intros Hr Ht Hl Hmax. unfold logger_factory_console_transform, LOGGER_EMERGENCY, LOGGER_DEBUG.
  destruct (Z.ltb_spec level 0); [lia|]. destruct (Z.gtb_spec level 7); [lia|].
  cbn [orb is_null default from_option id].
  unfold console_line in *.
  set (tail := " " ++ pad_right 10 (nth (Z.to_nat level) log_level_mapping_upper "")
               ++ " " ++ file ++ ":" ++ decimal filenumber ++ " - " ++ message ++ LF) in *.
  assert (Htail : (1 <= String.length tail)%nat)
    by (unfold tail; rewrite string_length_app; cbn [String.length]; lia).
  rewrite string_length_app in Hl, Hmax.
  unfold strftime.
  destruct (Nat.ltb_spec (String.length (w_ctime w timestamp)) LOGGER_MESSAGE_BUFFER);
    [|lia].
  destruct (Z.ltb_spec (Z.of_nat (String.length (w_ctime w timestamp))) 1); [lia|].
  rewrite (snprintf_fits LOGGER_MESSAGE_BUFFER _ _ tail (format_console_tail _ _ _ _))
    by lia.
  destruct (Z.ltb_spec (Z.of_nat (String.length tail)) 1); [lia|].
  cbv zeta. rewrite string_length_app, str_take_length.
  destruct (Nat.leb_spec LOGGER_MESSAGE_BUFFER
              (String.length (w_ctime w timestamp)
               + Nat.min (LOGGER_MESSAGE_BUFFER - 1) (String.length tail)));
    [reflexivity | lia].
Qed.

Lemma console_transform_overruns_witness :
  w_undefined
    (snd (logger_factory_console_transform 1633035745 LOGGER_INFO (Some "main.c") 12
            (Some (Sample.repeat_char 2047 "a")) Sample.test_world)) = true.
Proof.
  apply (console_transform_overruns 1633035745 LOGGER_INFO "main.c" 12
           (Sample.repeat_char 2047 "a") Sample.test_world).
  - unfold LOGGER_INFO; lia.
  - vm_compute; lia.
  - vm_compute; lia.
  - vm_compute; congruence.
Defined.

(** ** Runs of log calls *)

(** While the logger is switched off, any number of log calls with valid
    arguments leaves the whole state as it was. *)
Theorem inactive_logger_is_silent calls st :
  Logger_is_active st = false ->
  Forall (fun c => 0 <= call_level c <= 7
                   /\ call_file c <> None /\ call_message c <> None) calls ->
  logger_log_all calls st = st.
Proof.
  intros Ha H. induction H as [|c calls (Hr & Hf & Hm) _ IH]; [reflexivity|].
  cbn [logger_log_all]. unfold logger_log_call.
  destruct (call_file c) as [f|]; [|congruence].
  destruct (call_message c) as [m|]; [|congruence].
  rewrite logger_log_filtered; [exact IH | exact Hr | right; exact Ha].
Qed.

Lemma inactive_logger_is_silent_witness :
  logger_log_all Sample.two_calls (logger_toggle false Sample.csv_debug)
  = logger_toggle false Sample.csv_debug.
Proof.
  apply (inactive_logger_is_silent Sample.two_calls (logger_toggle false Sample.csv_debug)).
  - reflexivity.
  - unfold Sample.two_calls, LOGGER_INFO, LOGGER_DEBUG.
    repeat (apply List.Forall_cons; [cbn; repeat split; (lia || congruence)|]).
    apply List.Forall_nil.
Defined.

Lemma logger_log_calls_paired now level file linenumber message args st :
  callbacks_set st = true ->
  (transform_calls (logger_log now level file linenumber message args st)
   = transform_calls st
   /\ output_calls (logger_log now level file linenumber message args st)
      = output_calls st)
  \/ (transform_calls (logger_log now level file linenumber message args st)
      = S (transform_calls st)
      /\ output_calls (logger_log now level file linenumber message args st)
         = S (output_calls st)).
Proof.
  unfold callbacks_set. intros H. unfold logger_log.
  destruct (_ || _ || _ || _); [left; apply diag_calls|].
  destruct (_ || _); [left; auto|].
  destruct (vsnprintf _ _ _) as [[message_buffer n]|]; [|left; auto].
  destruct (n <? 1); [left; apply diag_calls|].
  destruct (Logger_transform_function st) as [transform|];
    [|rewrite andb_false_r in H; discriminate H].
  destruct (transform _ _ _ _ _ _) as [formatted w1].
  destruct (Logger_output_function st) as [output|]; [|discriminate H].
  destruct (output _ _ _) as [status w2].
  right. unfold transform_calls, output_calls.
  destruct (status <? 1); cbn [trace diag record set_world];
    rewrite ?count_events_app; unfold count_events; cbn; lia.
Qed.

(** With both callbacks set, every invocation of the transformer is
    followed by exactly one invocation of the sink, whatever the
    transformer returned: over any run of log calls the two counts grow
    by the same amount, and by at most one per call. *)
Theorem transform_and_output_paired calls st :
  callbacks_set st = true ->
  (transform_calls (logger_log_all calls st) - transform_calls st
   = output_calls (logger_log_all calls st) - output_calls st)%nat
  /\ (transform_calls st <= transform_calls (logger_log_all calls st)
      <= transform_calls st + length calls)%nat
  /\ (output_calls st <= output_calls (logger_log_all calls st))%nat.
Proof.
  revert st. induction calls as [|c calls IH]; intros st H; cbn [logger_log_all length].
  - lia.
  - assert (H' : callbacks_set (logger_log_call c st) = true).
    { unfold callbacks_set, Logger_output_function, Logger_transform_function,
        logger_log_call in *.
      destruct (logger_log_frame (call_now c) (call_level c) (call_file c) (call_line c)
                  (call_message c) (call_args c) st) as [-> _]. exact H. }
    specialize (IH _ H').
    destruct (logger_log_calls_paired (call_now c) (call_level c) (call_file c)
                (call_line c) (call_message c) (call_args c) st H) as [[E1 E2]|[E1 E2]];
      unfold logger_log_call in *; rewrite E1, E2 in IH; lia.
Qed.

Lemma transform_and_output_paired_witness :
  (transform_calls (logger_log_all Sample.two_calls Sample.reject_debug)
   - transform_calls Sample.reject_debug
   = output_calls (logger_log_all Sample.two_calls Sample.reject_debug)
     - output_calls Sample.reject_debug)%nat.
Proof.
  apply (transform_and_output_paired Sample.two_calls Sample.reject_debug).
  reflexivity.
Defined.
